(** * Phone-verification workflow of [main.py]

    A shallow embedding of the FastAPI route handlers of [main.py]
    (signup, signin, OTP verification, signout) and of its two Twilio
    helper functions, followed by the properties of the verification
    workflow.

    The handlers read and write [request.session], a Python [dict] that is
    mutated in place, call out to Twilio (through [requests.post]) and to
    Supabase, and either return a response or raise.  They are written
    here in a state-and-exception monad over the session and the log of
    outbound calls; the answers of the outside services are supplied by a
    record of oracles. *)

From stdpp Require Import gmap strings list fin_maps pretty.

Local Open Scope string_scope.
Local Set Warnings "-register-all".

(** ** Python values *)

(** Values that live in the session, in JSON bodies and in table rows.
    The session is serialised as JSON, so these are JSON values; numbers
    are kept to integers. *)
Inductive jval : Type :=
  | JNull
  | JBool (b : bool)
  | JNum (n : Z)
  | JStr (s : string)
  | JArr (l : list jval)
  | JObj (o : gmap string jval).

(** Exceptions.  [HTTPException] is a subclass of [Exception]; every other
    exception is kept as its class name and its [str()]. *)
Inductive exn : Type :=
  | HTTPException (status_code : nat) (detail : string)
  | PyError (cls : string) (msg : string).

(** Truth value of a Python object in [if x] / [not x]. *)
Definition py_truthy (v : jval) : bool :=
  match v with
  | JNull => false
  | JBool b => b
  | JNum n => negb (Z.eqb n 0)
  | JStr s => negb (String.eqb s "")
  | JArr l => match l with [] => false | _ :: _ => true end
  | JObj o => negb (bool_decide (o = ∅))
  end.

(** [v == s] for a string literal [s]. *)
Definition py_eq_str (v : jval) (s : string) : bool :=
  match v with
  | JStr t => String.eqb t s
  | _ => false
  end.

(** [v in [s1, s2, ...]] for a list of string literals. *)
Definition py_in_strs (v : jval) (l : list string) : bool :=
  existsb (py_eq_str v) l.

(** [d.get(k)] on a dict: the value, or [None]. *)
Definition dict_get (d : gmap string jval) (k : string) : jval :=
  default JNull (d !! k).

(** [v[k]] for a string key: only a dict can be subscripted by a string,
    and a missing key is a [KeyError]. *)
Definition py_getitem (v : jval) (k : string) : exn + jval :=
  match v with
  | JObj o =>
      match o !! k with
      | Some x => inr x
      | None => inl (PyError "KeyError" ("'" ++ k ++ "'"))
      end
  | JStr _ => inl (PyError "TypeError" "string indices must be integers")
  | JArr _ => inl (PyError "TypeError" "list indices must be integers or slices, not str")
  | JNull => inl (PyError "TypeError" "'NoneType' object is not subscriptable")
  | JBool _ => inl (PyError "TypeError" "'bool' object is not subscriptable")
  | JNum _ => inl (PyError "TypeError" "'int' object is not subscriptable")
  end.

(** [v.get(k)]: only a dict has the method. *)
Definition py_get (v : jval) (k : string) : exn + jval :=
  match v with
  | JObj o => inr (dict_get o k)
  | _ => inl (PyError "AttributeError" "object has no attribute 'get'")
  end.

(** [str(e)] of an exception. *)
Definition py_str_exn (e : exn) : string :=
  match e with
  | HTTPException status_code detail => pretty status_code ++ ": " ++ detail
  | PyError _ msg => msg
  end.

(** ** The outside world *)

(** An outbound call either returns or raises. *)
Inductive ext (A : Type) : Type :=
  | Returns (a : A)
  | Raises (cls : string) (msg : string).
Arguments Returns {A} a.
Arguments Raises {A} cls msg.

(** An object of which the code only takes the truth value and [str()]
    (the [error] attribute of a Supabase response). *)
Record pyobj : Type := { obj_truthy : bool; obj_str : string }.

(** What [supabase.auth.admin.create_user] returns: a response (or a
    falsy value, [None] here) whose [user] is a user object or [None]. *)
Record User : Type := { User_id : string }.
Record UserResponse : Type := { user : option User }.

(** What [.execute()] returns on a table query.  [None] stands for an
    attribute that is absent or [None]. *)
Record APIResponse : Type := {
  data : option (list (gmap string jval));
  error : option pyobj
}.

(** Process configuration read from the environment at start-up;
    [os.environ.get] gives [None] for an unset variable. *)
Record config : Type := {
  TWILIO_ACCOUNT_SID : option string;
  TWILIO_AUTH_TOKEN : option string;
  TWILIO_VERIFY_SERVICE_SID : option string
}.

(** The outbound calls the handlers make, as logged. *)
Inductive call : Type :=
  | RequestsPost (url : string) (form : list (string * jval))
                 (auth : option string * option string)
  | AuthAdminCreateUser (attributes : jval)
  | TableInsert (table : string) (row : gmap string jval)
  | TableSelectEq (table columns column : string) (value : jval).

(** The answers of the outside services.  [requests_post_json] is
    [requests.post(url, data=..., auth=...).json()]. *)
Record services : Type := {
  requests_post_json :
    string → list (string * jval) → option string * option string → ext jval;
  auth_admin_create_user : jval → ext (option UserResponse);
  table_insert_execute : string → gmap string jval → ext APIResponse;
  table_select_eq_execute : string → string → string → jval → ext APIResponse
}.

(** ** The handler monad *)

Record state : Type := {
  session : gmap string jval;
  calls : list call
}.

Inductive outcome (A : Type) : Type :=
  | Ok (a : A)
  | Raise (e : exn).
Arguments Ok {A} a.
Arguments Raise {A} e.

Definition M (A : Type) : Type := state → outcome A * state.

#[global] Instance M_ret : MRet M := λ A a st, (Ok a, st).

#[global] Instance M_bind : MBind M := λ A B f m st,
  match m st with
  | (Ok a, st') => f a st'
  | (Raise e, st') => (Raise e, st')
  end.

Definition raise {A : Type} (e : exn) : M A := λ st, (Raise e, st).

(** [try: body / except Exception as e: handler e].  Mutations made by
    the body before it raised are kept. *)
Definition try_except {A : Type} (body : M A) (handler : exn → M A) : M A :=
  λ st,
    match body st with
    | (Ok a, st') => (Ok a, st')
    | (Raise e, st') => handler e st'
    end.

Definition lift {A : Type} (r : exn + A) : M A :=
  match r with
  | inl e => raise e
  | inr a => mret a
  end.

(** [request.session.get(k)] *)
Definition session_get (k : string) : M jval :=
  λ st, (Ok (dict_get (session st) k), st).

(** [request.session[k] = v] *)
Definition session_set (k : string) (v : jval) : M unit :=
  λ st, (Ok tt, {| session := <[k := v]> (session st); calls := calls st |}).

(** [request.session.pop(k, None)] *)
Definition session_pop (k : string) : M unit :=
  λ st, (Ok tt, {| session := delete k (session st); calls := calls st |}).

(** An outbound call: logged, then answered by the oracle. *)
Definition outbound {A : Type} (c : call) (answer : ext A) : M A :=
  λ st,
    let st' := {| session := session st; calls := calls st ++ [c] |} in
    match answer with
    | Returns a => (Ok a, st')
    | Raises cls msg => (Raise (PyError cls msg), st')
    end.

(** ** Responses and requests *)

(** What a handler returns.  The template context is kept without its
    ["request"] entry.  [RedirectResponse] defaults to status 307. *)
Inductive response : Type :=
  | TemplateResponse (name : string) (context : gmap string jval)
  | RedirectResponse (url : string) (status_code : nat).

Definition HTTP_302_FOUND : nat := 302.
Definition redirect_default_status : nat := 307.

(** A value of [None] formatted into an f-string reads [None]. *)
Definition fmt_opt (o : option string) : string := default "None" o.

(** ** The handlers of [main.py] *)

(** [print] calls are left out: they write to the process's standard
    output and touch neither the session nor the response. *)

Section Handlers.

Context (cfg : config) (svc : services).

Definition twilio_auth : option string * option string :=
  (TWILIO_ACCOUNT_SID cfg, TWILIO_AUTH_TOKEN cfg).

(* ---------- Twilio Verify helper functions ---------- *)

Definition send_otp (phone_number : jval) : M jval :=
  let url := "https://verify.twilio.com/v2/Services/"
             ++ fmt_opt (TWILIO_VERIFY_SERVICE_SID cfg) ++ "/Verifications" in
  let data := [("To", phone_number); ("Channel", JStr "sms")] in
  outbound (RequestsPost url data twilio_auth)
           (requests_post_json svc url data twilio_auth).

Definition verify_otp (phone_number : jval) (code : string) : M jval :=
  let url := "https://verify.twilio.com/v2/Services/"
             ++ fmt_opt (TWILIO_VERIFY_SERVICE_SID cfg) ++ "/VerificationCheck" in
  let data := [("To", phone_number); ("Code", JStr code)] in
  outbound (RequestsPost url data twilio_auth)
           (requests_post_json svc url data twilio_auth).

(* ---------- Supabase client calls ---------- *)

Definition supabase_auth_admin_create_user (attributes : jval)
  : M (option UserResponse) :=
  outbound (AuthAdminCreateUser attributes)
           (auth_admin_create_user svc attributes).

Definition supabase_table_insert (table : string) (row : gmap string jval)
  : M APIResponse :=
  outbound (TableInsert table row) (table_insert_execute svc table row).

Definition supabase_table_select_eq
    (table columns column : string) (value : jval) : M APIResponse :=
  outbound (TableSelectEq table columns column value)
           (table_select_eq_execute svc table columns column value).

(* ---------- Routes ---------- *)

(** [GET /] *)
Definition home : M response :=
  user ← session_get "user";
  mret (TemplateResponse "home.html" {[ "user" := user ]}).

(** [GET /signup] *)
Definition get_signup : M response :=
  mret (TemplateResponse "signup.html" ∅).

(** [POST /signup] *)
Definition post_signup (name phone : string) : M response :=
  session_set "pending_user"
    (JObj (<["name" := JStr name]> (<["phone" := JStr phone]> ∅)));;
  otp_response ← send_otp (JStr phone);
  status ← lift (py_get otp_response "status");
  if negb (py_in_strs status ["pending"; "approved"]) then
    raise (HTTPException 500 "Failed to send OTP")
  else
    mret (RedirectResponse "/verify" HTTP_302_FOUND).

(** [GET /verify] *)
Definition get_verify : M response :=
  pending ← session_get "pending_user";
  if negb (py_truthy pending) then
    mret (RedirectResponse "/signup" redirect_default_status)
  else
    phone ← lift (py_getitem pending "phone");
    mret (TemplateResponse "verify.html" {[ "phone" := phone ]}).

(** The body of the [try] block of [POST /verify]: create the auth
    user, then the profile row; yields [user_id]. *)
Definition provision_account (name phone : jval) : M string :=
  auth_response ← supabase_auth_admin_create_user
    (JObj (<["phone" := phone]>
          (<["phone_confirm" := JBool true]>
          (<["user_metadata" := JObj {[ "name" := name ]}]> ∅))));
  match auth_response with
  | Some {| user := Some created_user |} =>
      let user_id := User_id created_user in
      let profile_data : gmap string jval :=
        <["id" := JStr user_id]>
        (<["name" := name]>
        (<["phone" := phone]>
        (<["created_at" := JStr "now()"]> ∅))) in
      profile_response ← supabase_table_insert "profiles" profile_data;
      match error profile_response with
      | Some err =>
          if obj_truthy err then
            raise (PyError "Exception"
                     ("Failed to create user profile: " ++ obj_str err))
          else mret user_id
      | None => mret user_id
      end
  | _ => raise (PyError "Exception"
                  "Supabase user creation response was invalid.")
  end.

(** [POST /verify] *)
Definition post_verify (otp : string) : M response :=
  pending ← session_get "pending_user";
  if negb (py_truthy pending) then
    raise (HTTPException 400 "No pending user found. Please sign up first.")
  else
    phone ← lift (py_getitem pending "phone");
    name ← lift (py_getitem pending "name");
    verify_result ← verify_otp phone otp;
    status ← lift (py_get verify_result "status");
    if negb (py_eq_str status "approved") then
      raise (HTTPException 400 "OTP verification failed. Please try again.")
    else
      user_id ← try_except (provision_account name phone)
        (λ e, raise (HTTPException 500
                       ("Error creating user in Supabase: " ++ py_str_exn e)));
      let user_for_session :=
        JObj (<["id" := JStr user_id]>
             (<["name" := name]>
             (<["phone" := phone]> ∅))) in
      session_set "user" user_for_session;;
      session_pop "pending_user";;
      mret (RedirectResponse "/" HTTP_302_FOUND).

(** [GET /signout] *)
Definition signout : M response :=
  session_pop "user";;
  mret (RedirectResponse "/" HTTP_302_FOUND).

(** [GET /signin] *)
Definition get_signin : M response :=
  mret (TemplateResponse "signin.html" ∅).

(** [POST /signin] *)
Definition post_signin (phone : string) : M response :=
  try_except
    (session_set "signin_phone" (JStr phone);;
     otp_response ← send_otp (JStr phone);
     status ← lift (py_get otp_response "status");
     if negb (py_in_strs status ["pending"; "approved"]) then
       raise (HTTPException 500 "Failed to send OTP")
     else
       mret (RedirectResponse "/signin/verify" HTTP_302_FOUND))
    (λ e, raise (HTTPException 500 "Error during sign-in")).

(** [GET /signin/verify] *)
Definition get_signin_verify : M response :=
  phone ← session_get "signin_phone";
  if negb (py_truthy phone) then
    mret (RedirectResponse "/signin" redirect_default_status)
  else
    mret (TemplateResponse "signin_verify.html" {[ "phone" := phone ]}).

(** [POST /signin/verify] *)
Definition post_signin_verify (otp : string) : M response :=
  phone ← session_get "signin_phone";
  if negb (py_truthy phone) then
    raise (HTTPException 400 "No phone number found. Please sign in first.")
  else
    verify_result ← verify_otp phone otp;
    status ← lift (py_get verify_result "status");
    if negb (py_eq_str status "approved") then
      raise (HTTPException 400 "OTP verification failed. Please try again.")
    else
      try_except
        (profile_response ← supabase_table_select_eq "profiles" "*" "phone" phone;
         match data profile_response with
         | None | Some [] =>
             raise (HTTPException 404 "No user found with this phone number")
         | Some (user_profile :: rest) =>
             if Nat.eqb (length (user_profile :: rest)) 0 then
               raise (HTTPException 404 "No user found with this phone number")
             else
               let user_for_session :=
                 JObj (<["id" := dict_get user_profile "id"]>
                      (<["name" := dict_get user_profile "name"]>
                      (<["phone" := dict_get user_profile "phone"]> ∅))) in
               session_set "user" user_for_session;;
               session_pop "signin_phone";;
               mret (RedirectResponse "/" HTTP_302_FOUND)
         end)
        (λ e, match e with
              | HTTPException _ _ => raise e
              | PyError _ _ =>
                  raise (HTTPException 500 "Error during sign-in verification")
              end).

End Handlers.

(** ** Routing and request sequences *)

Inductive request : Type :=
  | GET_home
  | GET_signup
  | POST_signup (name phone : string)
  | GET_verify
  | POST_verify (otp : string)
  | GET_signout
  | GET_signin
  | POST_signin (phone : string)
  | GET_signin_verify
  | POST_signin_verify (otp : string).

(** The route table of [app]. *)
Definition route (cfg : config) (svc : services) (req : request) : M response :=
  match req with
  | GET_home => home
  | GET_signup => get_signup
  | POST_signup name phone => post_signup cfg svc name phone
  | GET_verify => get_verify
  | POST_verify otp => post_verify cfg svc otp
  | GET_signout => signout
  | GET_signin => get_signin
  | POST_signin phone => post_signin cfg svc phone
  | GET_signin_verify => get_signin_verify
  | POST_signin_verify otp => post_signin_verify cfg svc otp
  end.

(** One request against a visitor's session.  The handler works on the
    session dict in place; what it leaves there goes back to the visitor
    with the response, also when the response is the one made from an
    [HTTPException].  An exception of any other class escapes the handler
    and the session middleware with it: the visitor keeps the session
    they came with. *)
Definition serve (cfg : config) (svc : services) (req : request)
    (s : gmap string jval) : outcome response * gmap string jval :=
  match route cfg svc req {| session := s; calls := [] |} with
  | (Ok r, st') => (Ok r, session st')
  | (Raise (HTTPException c d), st') => (Raise (HTTPException c d), session st')
  | (Raise (PyError cls msg), _) => (Raise (PyError cls msg), s)
  end.

(** The session after a sequence of requests, each with the answers the
    outside services give while it is handled. *)
Fixpoint run_requests (cfg : config) (reqs : list (services * request))
    (s : gmap string jval) : gmap string jval :=
  match reqs with
  | [] => s
  | (svc, req) :: reqs' => run_requests cfg reqs' (serve cfg svc req s).2
  end.

(** ** Sample configuration and services *)

Definition sample_config : config :=
  {| TWILIO_ACCOUNT_SID := Some "AC0";
     TWILIO_AUTH_TOKEN := Some "token";
     TWILIO_VERIFY_SERVICE_SID := Some "VA0" |}.

(** A gateway that answers every challenge send with [send_status] and
    every challenge check (a form with a [Code] field) with
    [check_status]. *)
Definition sample_gateway (send_status check_status : string)
    (url : string) (form : list (string * jval))
    (auth : option string * option string) : ext jval :=
  if existsb (λ kv, String.eqb kv.1 "Code") form
  then Returns (JObj {[ "status" := JStr check_status ]})
  else Returns (JObj {[ "status" := JStr send_status ]}).

(** An account store that answers user creation with [created], a profile
    insert with [inserted] and a profile lookup with [selected]. *)
Definition sample_services (send_status check_status : string)
    (created : option UserResponse) (inserted selected : APIResponse)
    : services :=
  {| requests_post_json := sample_gateway send_status check_status;
     auth_admin_create_user := λ _, Returns created;
     table_insert_execute := λ _ _, Returns inserted;
     table_select_eq_execute := λ _ _ _ _, Returns selected |}.

Definition no_rows : APIResponse := {| data := Some []; error := None |}.

Definition created_u1 : option UserResponse :=
  Some {| user := Some {| User_id := "u1" |} |}.

Definition ada_row : gmap string jval :=
  <["id" := JStr "u1"]>
  (<["name" := JStr "Ada"]>
  (<["phone" := JStr "+15551234567"]>
  (<["created_at" := JStr "2024-01-01"]> ∅))).

Definition anonymous : state := {| session := ∅; calls := [] |}.

(** ** Vocabulary of the statements *)

(** The challenge-send and challenge-check requests, as [send_otp] and
    [verify_otp] issue them, and the gateway's answers to them. *)
Definition send_request (cfg : config) (phone : jval) : call :=
  RequestsPost
    ("https://verify.twilio.com/v2/Services/"
       ++ fmt_opt (TWILIO_VERIFY_SERVICE_SID cfg) ++ "/Verifications")
    [("To", phone); ("Channel", JStr "sms")] (twilio_auth cfg).

Definition check_request (cfg : config) (phone : jval) (otp : string) : call :=
  RequestsPost
    ("https://verify.twilio.com/v2/Services/"
       ++ fmt_opt (TWILIO_VERIFY_SERVICE_SID cfg) ++ "/VerificationCheck")
    [("To", phone); ("Code", JStr otp)] (twilio_auth cfg).

Definition answer_of (svc : services) (c : call) : ext jval :=
  match c with
  | RequestsPost url form auth => requests_post_json svc url form auth
  | _ => Raises "TypeError" "not a gateway request"
  end.

(** The gateway answers the request with a JSON object whose [status]
    is [status]. *)
Definition gateway_status (svc : services) (c : call) (status : jval) : Prop :=
  ∃ o, answer_of svc c = Returns (JObj o) ∧ dict_get o "status" = status.

(** The arguments of the two account-store writes of [POST /verify]. *)
Definition create_user_attributes (name phone : jval) : jval :=
  JObj (<["phone" := phone]>
       (<["phone_confirm" := JBool true]>
       (<["user_metadata" := JObj {[ "name" := name ]}]> ∅))).

Definition profile_row (user_id : string) (name phone : jval) : gmap string jval :=
  <["id" := JStr user_id]>
  (<["name" := name]>
  (<["phone" := phone]>
  (<["created_at" := JStr "now()"]> ∅))).

(** The profile lookup of [POST /signin/verify]. *)
Definition select_request (phone : jval) : call :=
  TableSelectEq "profiles" "*" "phone" phone.

(** The identity a handler stores under ["user"]. *)
Definition identity (id name phone : jval) : jval :=
  JObj (<["id" := id]> (<["name" := name]> (<["phone" := phone]> ∅))).

(** The pending signup [POST /signup] stores under ["pending_user"]. *)
Definition pending_signup (name phone : string) : jval :=
  JObj (<["name" := JStr name]> (<["phone" := JStr phone]> ∅)).

(** A profile insert reports no error: the attribute is absent, [None],
    or falsy. *)
Definition insert_ok (r : APIResponse) : Prop :=
  match error r with
  | Some err => obj_truthy err = false
  | None => True
  end.

(** A state with the same session and further calls logged. *)
Definition logged (st : state) (cs : list call) : state :=
  {| session := session st; calls := calls st ++ cs |}.

(** ** Sample runs *)

Definition ada_phone : string := "+15551234567".

(** Every send is accepted, every check approved; account creation gives
    user [u1]; the profile table holds Ada's row. *)
Definition svc_approving : services :=
  sample_services "pending" "approved" created_u1 no_rows
    {| data := Some [ada_row]; error := None |}.

(** As [svc_approving], with an empty profile table. *)
Definition svc_unknown_phone : services :=
  sample_services "pending" "approved" created_u1 no_rows no_rows.

(** The gateway refuses every send and denies every check. *)
Definition svc_refusing : services :=
  sample_services "failed" "denied" created_u1 no_rows no_rows.

(** Checks are approved, account creation returns no user. *)
Definition svc_no_user : services :=
  sample_services "pending" "approved" (Some {| user := None |}) no_rows no_rows.

(** Checks are approved, the account is created, the profile insert
    reports an error. *)
Definition svc_insert_error : services :=
  sample_services "pending" "approved" created_u1
    {| data := None;
       error := Some {| obj_truthy := true; obj_str := "duplicate key" |} |}
    no_rows.

(** A visitor who has submitted the signup form. *)
Definition pending_signup_state : state :=
  {| session := {[ "pending_user" := pending_signup "Ada" ada_phone ]};
     calls := [] |}.

(** A visitor who has submitted the signin form. *)
Definition pending_signin_state : state :=
  {| session := {[ "signin_phone" := JStr ada_phone ]}; calls := [] |}.

(** A signed-in visitor with both kinds of pending state left over. *)
Definition crowded_state : state :=
  {| session :=
       <["user" := identity (JStr "u1") (JStr "Ada") (JStr ada_phone)]>
       (<["pending_user" := pending_signup "Ada" ada_phone]>
       (<["signin_phone" := JStr ada_phone]> ∅));
     calls := [] |}.

(** An abandoned signup followed by a completed signin. *)
Definition stale_signup_run : list (services * request) :=
  [(svc_approving, POST_signup "Ada" ada_phone);
   (svc_approving, POST_signin ada_phone);
   (svc_approving, POST_signin_verify "123456")].

(** An abandoned signin followed by a completed signup. *)
Definition stale_signin_run : list (services * request) :=
  [(svc_approving, POST_signin ada_phone);
   (svc_approving, POST_signup "Ada" ada_phone);
   (svc_approving, POST_verify "123456")].

(** The gateway cannot be reached: every request raises. *)
Definition svc_gateway_down : services :=
  {| requests_post_json := λ _ _ _, Raises "ConnectionError" "connection refused";
     auth_admin_create_user := λ _, Returns created_u1;
     table_insert_execute := λ _ _, Returns no_rows;
     table_select_eq_execute := λ _ _ _ _, Returns no_rows |}.


(** Checks are approved, every call to the account store raises. *)
Definition svc_store_down : services :=
  {| requests_post_json := sample_gateway "pending" "approved";
     auth_admin_create_user := λ _, Raises "APIError" "store unavailable";
     table_insert_execute := λ _ _, Raises "APIError" "store unavailable";
     table_select_eq_execute := λ _ _ _ _, Raises "APIError" "store unavailable" |}.

(** Checks are approved, the account is created, the profile insert
    raises. *)
Definition svc_insert_raises : services :=
  {| requests_post_json := sample_gateway "pending" "approved";
     auth_admin_create_user := λ _, Returns created_u1;
     table_insert_execute := λ _ _, Raises "APIError" "duplicate key";
     table_select_eq_execute := λ _ _ _ _, Returns no_rows |}.



(** A pending signup without its [name]. *)
Definition nameless_pending_state : state :=
  {| session := {[ "pending_user" := JObj {[ "phone" := JStr ada_phone ]} ]};
     calls := [] |}.

(** A pending signup that is not a dict. *)
Definition string_pending_state : state :=
  {| session := {[ "pending_user" := JStr "Ada" ]}; calls := [] |}.

(** The requests that only show a page. *)
Definition is_page (req : request) : bool :=
  match req with
  | GET_home | GET_signup | GET_verify | GET_signin | GET_signin_verify => true
  | _ => false
  end.

(** The gateway of [svc] approves no check. *)
Definition never_approves (cfg : config) (svc : services) : Prop :=
  ∀ phone otp,
    ¬ gateway_status svc (check_request cfg phone otp) (JStr "approved").

(** A visitor who tries everything against a gateway that approves
    nothing. *)
Definition refused_run : list (services * request) :=
  [(svc_refusing, POST_signup "Ada" ada_phone);
   (svc_refusing, POST_verify "000000");
   (svc_refusing, POST_signin ada_phone);
   (svc_refusing, POST_signin_verify "000000");
   (svc_refusing, GET_home)].

(** * Properties *)

(** ** Helper lemmas *)

Lemma py_eq_str_true v s : py_eq_str v s = true ↔ v = JStr s.
Proof.
  destruct v; simpl; try (split; [discriminate | intros; discriminate]).
  rewrite String.eqb_eq. split; [intros ->; reflexivity | intros [= ->]; reflexivity].
Qed.

Lemma py_eq_str_false v s : py_eq_str v s = false ↔ v ≠ JStr s.
Proof.
  rewrite <- py_eq_str_true. destruct (py_eq_str v s); split; congruence.
Qed.

Lemma py_truthy_insert k v (o : gmap string jval) :
  py_truthy (JObj (<[k := v]> o)) = true.
Proof.
  simpl. rewrite bool_decide_eq_false_2; [reflexivity | apply insert_non_empty].
Qed.

Lemma py_truthy_str s : s ≠ "" → py_truthy (JStr s) = true.
Proof.
  intros H. simpl. destruct (String.eqb_spec s ""); [contradiction | reflexivity].
Qed.

Lemma dict_get_some (d : gmap string jval) k v : d !! k = Some v → dict_get d k = v.
Proof. intros H. unfold dict_get. rewrite H. reflexivity. Qed.

(** Running one outbound call. *)
Lemma outbound_returns {A} c (a : A) answer st :
  answer = Returns a → outbound c answer st = (Ok a, logged st [c]).
Proof. intros ->. reflexivity. Qed.

Lemma verify_otp_run cfg svc phone otp st :
  verify_otp cfg svc phone otp st =
  outbound (check_request cfg phone otp)
           (answer_of svc (check_request cfg phone otp)) st.
Proof. reflexivity. Qed.

Lemma send_otp_run cfg svc phone st :
  send_otp cfg svc phone st =
  outbound (send_request cfg phone)
           (answer_of svc (send_request cfg phone)) st.
Proof. reflexivity. Qed.

(** ** [POST /verify], branch by branch *)

Section PostVerify.

Context (cfg : config) (svc : services).

(** With a well-formed pending signup the handler reaches the challenge
    check; a status other than [approved] raises and nothing else
    happens. *)
Lemma post_verify_rejected st otp pending phone name o :
  session st !! "pending_user" = Some pending →
  py_truthy pending = true →
  py_getitem pending "phone" = inr phone →
  py_getitem pending "name" = inr name →
  answer_of svc (check_request cfg phone otp) = Returns (JObj o) →
  dict_get o "status" ≠ JStr "approved" →
  post_verify cfg svc otp st =
    (Raise (HTTPException 400 "OTP verification failed. Please try again."),
     logged st [check_request cfg phone otp]).
Proof.
  intros Hs Ht Hp Hn Ha Hne.
  apply py_eq_str_false in Hne.
  unfold post_verify, mbind, M_bind, session_get.
  rewrite (dict_get_some _ _ _ Hs), Ht. simpl.
  rewrite Hp, Hn. simpl.
  rewrite verify_otp_run, (outbound_returns _ _ _ _ Ha). simpl.
  rewrite Hne. reflexivity.
Qed.

(** With an approved check the handler runs the provisioning block and
    promotes the session only if that block returns. *)
Lemma post_verify_approved st otp pending phone name o :
  session st !! "pending_user" = Some pending →
  py_truthy pending = true →
  py_getitem pending "phone" = inr phone →
  py_getitem pending "name" = inr name →
  answer_of svc (check_request cfg phone otp) = Returns (JObj o) →
  dict_get o "status" = JStr "approved" →
  post_verify cfg svc otp st =
    match provision_account svc name phone
            (logged st [check_request cfg phone otp]) with
    | (Ok user_id, st') =>
        (Ok (RedirectResponse "/" 302),
         {| session := delete "pending_user"
                         (<["user" := identity (JStr user_id) name phone]>
                            (session st'));
            calls := calls st' |})
    | (Raise e, st') =>
        (Raise (HTTPException 500
                  ("Error creating user in Supabase: " ++ py_str_exn e)), st')
    end.
Proof.
  intros Hs Ht Hp Hn Ha He.
  apply py_eq_str_true in He.
  unfold post_verify, mbind, M_bind, session_get.
  rewrite (dict_get_some _ _ _ Hs), Ht. simpl.
  rewrite Hp, Hn. simpl.
  rewrite verify_otp_run, (outbound_returns _ _ _ _ Ha). simpl.
  rewrite He. simpl. unfold try_except.
  destruct (provision_account svc name phone _) as [[uid | e] st']; reflexivity.
Qed.

End PostVerify.

(** ** The provisioning block *)

Section Provision.

Context (svc : services).

Lemma provision_account_ok st name phone u ins :
  auth_admin_create_user svc (create_user_attributes name phone)
    = Returns (Some {| user := Some u |}) →
  table_insert_execute svc "profiles" (profile_row (User_id u) name phone)
    = Returns ins →
  insert_ok ins →
  provision_account svc name phone st =
    (Ok (User_id u),
     logged st [AuthAdminCreateUser (create_user_attributes name phone);
                TableInsert "profiles" (profile_row (User_id u) name phone)]).
Proof.
  intros Hc Hi Hok.
  unfold provision_account, mbind, M_bind, supabase_auth_admin_create_user,
    supabase_table_insert.
  fold (create_user_attributes name phone).
  rewrite (outbound_returns _ _ _ _ Hc).
  fold (profile_row (User_id u) name phone).
  rewrite (outbound_returns _ _ _ _ Hi).
  unfold insert_ok in Hok. unfold logged. simpl. rewrite <- app_assoc. simpl.
  destruct (error ins) as [err|]; [rewrite Hok|]; reflexivity.
Qed.

Lemma provision_account_no_user st name phone r :
  auth_admin_create_user svc (create_user_attributes name phone) = Returns r →
  r = None ∨ r = Some {| user := None |} →
  provision_account svc name phone st =
    (Raise (PyError "Exception" "Supabase user creation response was invalid."),
     logged st [AuthAdminCreateUser (create_user_attributes name phone)]).
Proof.
  intros Hc Hr.
  unfold provision_account, mbind, M_bind, supabase_auth_admin_create_user.
  fold (create_user_attributes name phone).
  rewrite (outbound_returns _ _ _ _ Hc).
  destruct Hr as [-> | ->]; reflexivity.
Qed.

Lemma provision_account_insert_error st name phone u ins err :
  auth_admin_create_user svc (create_user_attributes name phone)
    = Returns (Some {| user := Some u |}) →
  table_insert_execute svc "profiles" (profile_row (User_id u) name phone)
    = Returns ins →
  error ins = Some err →
  obj_truthy err = true →
  provision_account svc name phone st =
    (Raise (PyError "Exception"
              ("Failed to create user profile: " ++ obj_str err)),
     logged st [AuthAdminCreateUser (create_user_attributes name phone);
                TableInsert "profiles" (profile_row (User_id u) name phone)]).
Proof.
  intros Hc Hi He Ht.
  unfold provision_account, mbind, M_bind, supabase_auth_admin_create_user,
    supabase_table_insert.
  fold (create_user_attributes name phone).
  rewrite (outbound_returns _ _ _ _ Hc).
  fold (profile_row (User_id u) name phone).
  rewrite (outbound_returns _ _ _ _ Hi).
  rewrite He, Ht. unfold logged. simpl. rewrite <- app_assoc. reflexivity.
Qed.

(** Whatever the account store answers, the block leaves the session
    alone. *)
Lemma provision_account_session st name phone :
  session (provision_account svc name phone st).2 = session st.
Proof.
  unfold provision_account, mbind, M_bind, supabase_auth_admin_create_user,
    supabase_table_insert, outbound.
  destruct (auth_admin_create_user svc _) as [[[[u|]]|]|cls msg]; simpl;
    try reflexivity.
  destruct (table_insert_execute svc _ _) as [ins|cls msg]; simpl;
    try reflexivity.
  destruct (error ins) as [err|]; simpl; try reflexivity.
  destruct (obj_truthy err); reflexivity.
Qed.

End Provision.

(** ** [POST /signin/verify], branch by branch *)

Section PostSigninVerify.

Context (cfg : config) (svc : services).

Lemma post_signin_verify_rejected st otp phone o :
  session st !! "signin_phone" = Some phone →
  py_truthy phone = true →
  answer_of svc (check_request cfg phone otp) = Returns (JObj o) →
  dict_get o "status" ≠ JStr "approved" →
  post_signin_verify cfg svc otp st =
    (Raise (HTTPException 400 "OTP verification failed. Please try again."),
     logged st [check_request cfg phone otp]).
Proof.
  intros Hs Ht Ha Hne.
  apply py_eq_str_false in Hne.
  unfold post_signin_verify, mbind, M_bind, session_get.
  rewrite (dict_get_some _ _ _ Hs), Ht. simpl.
  rewrite verify_otp_run, (outbound_returns _ _ _ _ Ha). simpl.
  rewrite Hne. reflexivity.
Qed.

Lemma post_signin_verify_found st otp phone o r user_profile rest :
  session st !! "signin_phone" = Some phone →
  py_truthy phone = true →
  answer_of svc (check_request cfg phone otp) = Returns (JObj o) →
  dict_get o "status" = JStr "approved" →
  table_select_eq_execute svc "profiles" "*" "phone" phone = Returns r →
  data r = Some (user_profile :: rest) →
  post_signin_verify cfg svc otp st =
    (Ok (RedirectResponse "/" 302),
     {| session :=
          delete "signin_phone"
            (<["user" := identity (dict_get user_profile "id")
                                  (dict_get user_profile "name")
                                  (dict_get user_profile "phone")]>
               (session st));
        calls := calls st ++ [check_request cfg phone otp;
                              select_request phone] |}).
Proof.
  intros Hs Ht Ha He Hq Hd.
  apply py_eq_str_true in He.
  unfold post_signin_verify, mbind, M_bind, session_get.
  rewrite (dict_get_some _ _ _ Hs), Ht. simpl.
  rewrite verify_otp_run, (outbound_returns _ _ _ _ Ha). simpl.
  rewrite He. simpl.
  unfold try_except, supabase_table_select_eq.
  rewrite (outbound_returns _ _ _ _ Hq), Hd. simpl.
  rewrite <- app_assoc. reflexivity.
Qed.

Lemma post_signin_verify_not_found st otp phone o r :
  session st !! "signin_phone" = Some phone →
  py_truthy phone = true →
  answer_of svc (check_request cfg phone otp) = Returns (JObj o) →
  dict_get o "status" = JStr "approved" →
  table_select_eq_execute svc "profiles" "*" "phone" phone = Returns r →
  data r = None ∨ data r = Some [] →
  post_signin_verify cfg svc otp st =
    (Raise (HTTPException 404 "No user found with this phone number"),
     logged st [check_request cfg phone otp; select_request phone]).
Proof.
  intros Hs Ht Ha He Hq Hd.
  apply py_eq_str_true in He.
  unfold post_signin_verify, mbind, M_bind, session_get.
  rewrite (dict_get_some _ _ _ Hs), Ht. simpl.
  rewrite verify_otp_run, (outbound_returns _ _ _ _ Ha). simpl.
  rewrite He. simpl.
  unfold try_except, supabase_table_select_eq.
  rewrite (outbound_returns _ _ _ _ Hq).
  unfold logged. simpl. rewrite <- app_assoc. simpl.
  destruct Hd as [-> | ->]; reflexivity.
Qed.

End PostSigninVerify.

(** ** The approval gate *)

Section Gate.

Context (cfg : config) (svc : services).

(** Unless the gateway approves the check for the pending phone,
    [POST /verify] raises and leaves the session as it found it. *)
Lemma post_verify_gate st otp :
  (session (post_verify cfg svc otp st).2 = session st ∧
   ∃ e, (post_verify cfg svc otp st).1 = Raise e) ∨
  (∃ pending phone,
      session st !! "pending_user" = Some pending ∧
      py_getitem pending "phone" = inr phone ∧
      gateway_status svc (check_request cfg phone otp) (JStr "approved")).
Proof.
  unfold post_verify, mbind, M_bind, session_get, dict_get.
  destruct (session st !! "pending_user") as [pending|] eqn:Hs; simpl;
    [| left; eauto].
  destruct (py_truthy pending); simpl; [| left; eauto].
  destruct (py_getitem pending "phone") as [e|phone] eqn:Hp; simpl;
    [left; eauto |].
  destruct (py_getitem pending "name") as [e|name]; simpl; [left; eauto |].
  rewrite verify_otp_run. unfold outbound.
  destruct (answer_of svc (check_request cfg phone otp)) as [v|cls msg] eqn:Ha;
    simpl; [| left; eauto].
  destruct v as [| | | | |o]; simpl;
    try (left; split; [reflexivity | eexists; reflexivity]).
  destruct (py_eq_str (dict_get o "status") "approved") eqn:He;
    simpl; [| left; split; [reflexivity | eexists; reflexivity]].
  right. exists pending, phone. split; [reflexivity|]. split; [assumption|].
  exists o. split; [assumption|]. apply py_eq_str_true. exact He.
Qed.

Lemma post_signin_verify_gate st otp :
  (session (post_signin_verify cfg svc otp st).2 = session st ∧
   ∃ e, (post_signin_verify cfg svc otp st).1 = Raise e) ∨
  (∃ phone,
      session st !! "signin_phone" = Some phone ∧
      gateway_status svc (check_request cfg phone otp) (JStr "approved")).
Proof.
  unfold post_signin_verify, mbind, M_bind, session_get, dict_get.
  destruct (session st !! "signin_phone") as [phone|] eqn:Hs; simpl;
    [| left; eauto].
  destruct (py_truthy phone); simpl; [| left; eauto].
  rewrite verify_otp_run. unfold outbound.
  destruct (answer_of svc (check_request cfg phone otp)) as [v|cls msg] eqn:Ha;
    simpl; [| left; eauto].
  destruct v as [| | | | |o]; simpl;
    try (left; split; [reflexivity | eexists; reflexivity]).
  destruct (py_eq_str (dict_get o "status") "approved") eqn:He;
    simpl; [| left; split; [reflexivity | eexists; reflexivity]].
  right. exists phone. split; [reflexivity|].
  exists o. split; [assumption|]. apply py_eq_str_true. exact He.
Qed.

End Gate.

(** ** The two form submissions *)

Local Arguments py_in_strs : simpl never.

Section Submit.

Context (cfg : config) (svc : services).

Lemma post_signup_run st name phone o :
  answer_of svc (send_request cfg (JStr phone)) = Returns (JObj o) →
  post_signup cfg svc name phone st =
    (if py_in_strs (dict_get o "status") ["pending"; "approved"]
     then Ok (RedirectResponse "/verify" 302)
     else Raise (HTTPException 500 "Failed to send OTP"),
     {| session := <["pending_user" := pending_signup name phone]> (session st);
        calls := calls st ++ [send_request cfg (JStr phone)] |}).
Proof.
  intros Ha.
  unfold post_signup, mbind, M_bind, session_set.
  rewrite send_otp_run, (outbound_returns _ _ _ _ Ha). simpl.
  destruct (py_in_strs (dict_get o "status") _); reflexivity.
Qed.

Lemma post_signin_run st phone o :
  answer_of svc (send_request cfg (JStr phone)) = Returns (JObj o) →
  post_signin cfg svc phone st =
    (if py_in_strs (dict_get o "status") ["pending"; "approved"]
     then Ok (RedirectResponse "/signin/verify" 302)
     else Raise (HTTPException 500 "Error during sign-in"),
     {| session := <["signin_phone" := JStr phone]> (session st);
        calls := calls st ++ [send_request cfg (JStr phone)] |}).
Proof.
  intros Ha.
  unfold post_signin, try_except, mbind, M_bind, session_set.
  rewrite send_otp_run, (outbound_returns _ _ _ _ Ha). simpl.
  destruct (py_in_strs (dict_get o "status") _); reflexivity.
Qed.

End Submit.

Lemma py_in_strs_accepted v :
  py_in_strs v ["pending"; "approved"] = true ↔
  v = JStr "pending" ∨ v = JStr "approved".
Proof.
  unfold py_in_strs. cbn [existsb]. rewrite orb_false_r, orb_true_iff.
  rewrite !py_eq_str_true. reflexivity.
Qed.

(** ** Sign-out and the verification pages *)

Lemma signout_run st :
  signout st =
    (Ok (RedirectResponse "/" 302),
     {| session := delete "user" (session st); calls := calls st |}).
Proof. reflexivity. Qed.

Lemma home_run st :
  home st =
    (Ok (TemplateResponse "home.html"
           {[ "user" := dict_get (session st) "user" ]}), st).
Proof. reflexivity. Qed.

(** ** What a successful verification does to the session *)

Section Success.

Context (cfg : config) (svc : services).

Lemma post_verify_ok st otp resp :
  (post_verify cfg svc otp st).1 = Ok resp →
  resp = RedirectResponse "/" 302 ∧
  ∃ u, session (post_verify cfg svc otp st).2 =
         delete "pending_user" (<["user" := u]> (session st)).
Proof.
  unfold post_verify, mbind, M_bind, session_get.
  destruct (py_truthy (dict_get (session st) "pending_user")); simpl;
    [| discriminate].
  destruct (py_getitem _ "phone") as [e|phone]; simpl; [discriminate |].
  destruct (py_getitem _ "name") as [e|name]; simpl; [discriminate |].
  rewrite verify_otp_run. unfold outbound.
  destruct (answer_of svc (check_request cfg phone otp)) as [v|cls msg];
    simpl; [| discriminate].
  destruct v as [| | | | |o]; simpl; try discriminate.
  destruct (py_eq_str (dict_get o "status") "approved"); simpl;
    [| discriminate].
  unfold try_except.
  pose proof (provision_account_session svc
                {| session := session st;
                   calls := calls st ++ [check_request cfg phone otp] |}
                name phone) as Hsess.
  destruct (provision_account svc name phone _) as [[uid|e] st'];
    simpl in *; [| discriminate].
  intros [= <-]. split; [reflexivity |].
  rewrite Hsess. eexists. reflexivity.
Qed.

Lemma post_signin_verify_ok st otp resp :
  (post_signin_verify cfg svc otp st).1 = Ok resp →
  resp = RedirectResponse "/" 302 ∧
  ∃ u, session (post_signin_verify cfg svc otp st).2 =
         delete "signin_phone" (<["user" := u]> (session st)).
Proof.
  unfold post_signin_verify, mbind, M_bind, session_get.
  destruct (py_truthy (dict_get (session st) "signin_phone")); simpl;
    [| discriminate].
  rewrite verify_otp_run. unfold outbound.
  destruct (answer_of svc (check_request cfg _ otp)) as [v|cls msg];
    simpl; [| discriminate].
  destruct v as [| | | | |o]; simpl; try discriminate.
  destruct (py_eq_str (dict_get o "status") "approved"); simpl;
    [| discriminate].
  unfold try_except, supabase_table_select_eq, outbound.
  destruct (table_select_eq_execute svc _ _ _ _) as [r|cls msg]; simpl;
    [| discriminate].
  destruct (data r) as [[|row rest]|]; simpl; try discriminate.
  intros [= <-]. split; [reflexivity |]. eexists. reflexivity.
Qed.

End Success.

(** * The claims *)

(** C1.  On either verification endpoint, a challenge check that comes
    back with any status other than [approved] makes the request fail
    with the verification-failed error (HTTP 400) and leaves the session
    exactly as it was: the only thing that happened is the check itself.
    In particular [session["user"]] is not set.  This holds whenever the
    handler reaches the check (the pending signup, respectively the
    pending signin phone, is in the session).  For every session
    whatsoever, a gateway that approves nothing means the handler raises
    and the session is untouched. *)
Theorem otp_not_approved_rejected cfg svc st otp :
  (∀ pending phone name status,
      session st !! "pending_user" = Some pending →
      py_truthy pending = true →
      py_getitem pending "phone" = inr phone →
      py_getitem pending "name" = inr name →
      gateway_status svc (check_request cfg phone otp) status →
      status ≠ JStr "approved" →
      post_verify cfg svc otp st =
        (Raise (HTTPException 400 "OTP verification failed. Please try again."),
         {| session := session st;
            calls := calls st ++ [check_request cfg phone otp] |})) ∧
  (∀ phone status,
      session st !! "signin_phone" = Some phone →
      py_truthy phone = true →
      gateway_status svc (check_request cfg phone otp) status →
      status ≠ JStr "approved" →
      post_signin_verify cfg svc otp st =
        (Raise (HTTPException 400 "OTP verification failed. Please try again."),
         {| session := session st;
            calls := calls st ++ [check_request cfg phone otp] |})) ∧
  ((∀ phone, ¬ gateway_status svc (check_request cfg phone otp) (JStr "approved")) →
      (session (post_verify cfg svc otp st).2 = session st ∧
       ∃ e, (post_verify cfg svc otp st).1 = Raise e) ∧
      (session (post_signin_verify cfg svc otp st).2 = session st ∧
       ∃ e, (post_signin_verify cfg svc otp st).1 = Raise e)).
Proof.
  split; [| split].
  - intros pending phone name status Hs Ht Hp Hn [o [Ha Hst]] Hne.
    subst status.
    apply (post_verify_rejected cfg svc st otp pending phone name o); assumption.
  - intros phone status Hs Ht [o [Ha Hst]] Hne. subst status.
    apply (post_signin_verify_rejected cfg svc st otp phone o); assumption.
  - intros Hnever. split.
    + destruct (post_verify_gate cfg svc st otp)
        as [H | (pending & phone & _ & _ & Happ)]; [exact H |].
      exfalso. exact (Hnever phone Happ).
    + destruct (post_signin_verify_gate cfg svc st otp)
        as [H | (phone & _ & Happ)]; [exact H |].
      exfalso. exact (Hnever phone Happ).
Qed.

Lemma svc_refusing_never_approves otp phone :
  ¬ gateway_status svc_refusing (check_request sample_config phone otp)
      (JStr "approved").
Proof.
  intros [o [Ha Hs]]. cbv in Ha. injection Ha as <-.
  vm_compute in Hs. discriminate.
Qed.

Lemma otp_not_approved_rejected_witness :
  post_verify sample_config svc_refusing "000000" pending_signup_state =
    (Raise (HTTPException 400 "OTP verification failed. Please try again."),
     {| session := session pending_signup_state;
        calls := [check_request sample_config (JStr ada_phone) "000000"] |}) ∧
  post_signin_verify sample_config svc_refusing "000000" pending_signin_state =
    (Raise (HTTPException 400 "OTP verification failed. Please try again."),
     {| session := session pending_signin_state;
        calls := [check_request sample_config (JStr ada_phone) "000000"] |}) ∧
  session (post_verify sample_config svc_refusing "000000" crowded_state).2
    = session crowded_state.
Proof.
  split; [| split].
  - apply (proj1 (otp_not_approved_rejected sample_config svc_refusing
                    pending_signup_state "000000"))
      with (pending := pending_signup "Ada" ada_phone) (name := JStr "Ada")
           (status := JStr "denied").
    + vm_compute. reflexivity.
    + vm_compute. reflexivity.
    + vm_compute. reflexivity.
    + vm_compute. reflexivity.
    + eexists. split; vm_compute; reflexivity.
    + discriminate.
  - apply (proj1 (proj2 (otp_not_approved_rejected sample_config svc_refusing
                           pending_signin_state "000000")))
      with (status := JStr "denied").
    + vm_compute. reflexivity.
    + vm_compute. reflexivity.
    + eexists. split; vm_compute; reflexivity.
    + discriminate.
  - apply (proj2 (proj2 (otp_not_approved_rejected sample_config svc_refusing
                           crowded_state "000000"))).
    intros phone. apply svc_refusing_never_approves.
Defined.

(** C2.  With the pending signup [{name, phone}] that [POST /signup]
    stores in the session, an approved check, an account creation that
    returns a user and a profile insert that reports no error,
    [POST /verify] redirects to [/] (302); on the way it issues exactly
    one account creation (for [phone], with [name] as metadata) and
    exactly one profile insert, of the row [{id, name, phone,
    created_at}] carrying the created account's id and the pending phone;
    afterwards [session["user"]] is [{id, name, phone}] and
    [session["pending_user"]] is gone. *)
Theorem signup_verify_provisions cfg svc st otp name phone u ins :
  session st !! "pending_user" = Some (pending_signup name phone) →
  gateway_status svc (check_request cfg (JStr phone) otp) (JStr "approved") →
  auth_admin_create_user svc (create_user_attributes (JStr name) (JStr phone))
    = Returns (Some {| user := Some u |}) →
  table_insert_execute svc "profiles"
    (profile_row (User_id u) (JStr name) (JStr phone)) = Returns ins →
  insert_ok ins →
  let r := post_verify cfg svc otp st in
  r.1 = Ok (RedirectResponse "/" 302) ∧
  calls r.2 = (calls st ++
    [check_request cfg (JStr phone) otp;
     AuthAdminCreateUser (create_user_attributes (JStr name) (JStr phone));
     TableInsert "profiles" (profile_row (User_id u) (JStr name) (JStr phone))])%list ∧
  profile_row (User_id u) (JStr name) (JStr phone) !! "phone" = Some (JStr phone) ∧
  profile_row (User_id u) (JStr name) (JStr phone) !! "id" = Some (JStr (User_id u)) ∧
  session r.2 =
    delete "pending_user"
      (<["user" := identity (JStr (User_id u)) (JStr name) (JStr phone)]>
         (session st)) ∧
  session r.2 !! "user" =
    Some (identity (JStr (User_id u)) (JStr name) (JStr phone)) ∧
  session r.2 !! "pending_user" = None.
Proof.
  intros Hs [o [Ha Hst]] Hc Hi Hok r.
  assert (Hr : r =
    (Ok (RedirectResponse "/" 302),
     {| session := delete "pending_user"
                     (<["user" := identity (JStr (User_id u)) (JStr name)
                                           (JStr phone)]> (session st));
        calls := calls st ++
          [check_request cfg (JStr phone) otp;
           AuthAdminCreateUser (create_user_attributes (JStr name) (JStr phone));
           TableInsert "profiles"
             (profile_row (User_id u) (JStr name) (JStr phone))] |})).
  { unfold r.
    rewrite (post_verify_approved cfg svc st otp (pending_signup name phone)
               (JStr phone) (JStr name) o Hs); try assumption.
    - rewrite (provision_account_ok svc _ _ _ u ins Hc Hi Hok).
      unfold logged. simpl. rewrite <- app_assoc. reflexivity.
    - apply py_truthy_insert.
    - reflexivity.
    - reflexivity. }
  rewrite Hr. simpl.
  repeat split.
  - rewrite lookup_delete_ne by discriminate. apply lookup_insert_eq.
  - apply lookup_delete_eq.
Qed.

Lemma signup_verify_provisions_witness :
  let r := post_verify sample_config svc_approving "123456" pending_signup_state in
  r.1 = Ok (RedirectResponse "/" 302) ∧
  session r.2 !! "user" =
    Some (identity (JStr "u1") (JStr "Ada") (JStr ada_phone)) ∧
  session r.2 !! "pending_user" = None.
Proof.
  destruct (signup_verify_provisions sample_config svc_approving
              pending_signup_state "123456" "Ada" ada_phone
              {| User_id := "u1" |} no_rows)
    as (H1 & _ & _ & _ & _ & H2 & H3).
  - vm_compute. reflexivity.
  - eexists. split; vm_compute; reflexivity.
  - reflexivity.
  - reflexivity.
  - exact I.
  - exact (conj H1 (conj H2 H3)).
Defined.

(** C3.  With a pending signin phone in the session, an approved check
    and a profile lookup that returns at least one row, [POST
    /signin/verify] redirects to [/] (302), sets [session["user"]] to
    [{id, name, phone}] read from the first row returned (a field the row
    lacks reads [None]), and removes [session["signin_phone"]].  With
    exactly one row ([rest = []]) that row is the stored profile. *)
Theorem signin_verify_resolves cfg svc st otp phone r user_profile rest :
  session st !! "signin_phone" = Some (JStr phone) →
  phone ≠ "" →
  gateway_status svc (check_request cfg (JStr phone) otp) (JStr "approved") →
  table_select_eq_execute svc "profiles" "*" "phone" (JStr phone) = Returns r →
  data r = Some (user_profile :: rest) →
  let res := post_signin_verify cfg svc otp st in
  res.1 = Ok (RedirectResponse "/" 302) ∧
  session res.2 !! "user" =
    Some (identity (dict_get user_profile "id") (dict_get user_profile "name")
                   (dict_get user_profile "phone")) ∧
  session res.2 !! "signin_phone" = None ∧
  session res.2 =
    delete "signin_phone"
      (<["user" := identity (dict_get user_profile "id")
                            (dict_get user_profile "name")
                            (dict_get user_profile "phone")]> (session st)) ∧
  calls res.2 =
    (calls st ++ [check_request cfg (JStr phone) otp;
                  select_request (JStr phone)])%list.
Proof.
  intros Hs Hne [o [Ha Hst]] Hq Hd res. unfold res.
  rewrite (post_signin_verify_found cfg svc st otp (JStr phone) o r
             user_profile rest Hs (py_truthy_str phone Hne) Ha Hst Hq Hd).
  simpl. repeat split.
  - rewrite lookup_delete_ne by discriminate. apply lookup_insert_eq.
  - apply lookup_delete_eq.
Qed.

Lemma signin_verify_resolves_witness :
  let res := post_signin_verify sample_config svc_approving "123456"
               pending_signin_state in
  res.1 = Ok (RedirectResponse "/" 302) ∧
  session res.2 !! "user" =
    Some (identity (JStr "u1") (JStr "Ada") (JStr ada_phone)) ∧
  session res.2 !! "signin_phone" = None.
Proof.
  destruct (signin_verify_resolves sample_config svc_approving
              pending_signin_state "123456" ada_phone
              {| data := Some [ada_row]; error := None |} ada_row [])
    as (H1 & H2 & H3 & _).
  - vm_compute. reflexivity.
  - discriminate.
  - eexists. split; vm_compute; reflexivity.
  - reflexivity.
  - reflexivity.
  - exact (conj H1 (conj H2 H3)).
Defined.

(** C4.  With a pending signin phone in the session and an approved
    check, a profile lookup that returns no row (an empty list, or no
    data at all) makes [POST /signin/verify] fail with HTTP 404 "No user
    found with this phone number"; the session is left as it was, so
    [session["user"]] is not set. *)
Theorem signin_verify_unknown_phone cfg svc st otp phone r :
  session st !! "signin_phone" = Some (JStr phone) →
  phone ≠ "" →
  gateway_status svc (check_request cfg (JStr phone) otp) (JStr "approved") →
  table_select_eq_execute svc "profiles" "*" "phone" (JStr phone) = Returns r →
  data r = None ∨ data r = Some [] →
  let res := post_signin_verify cfg svc otp st in
  res.1 = Raise (HTTPException 404 "No user found with this phone number") ∧
  session res.2 = session st ∧
  session res.2 !! "user" = session st !! "user".
Proof.
  intros Hs Hne [o [Ha Hst]] Hq Hd res. unfold res.
  rewrite (post_signin_verify_not_found cfg svc st otp (JStr phone) o r
             Hs (py_truthy_str phone Hne) Ha Hst Hq Hd).
  simpl. repeat split.
Qed.

Lemma signin_verify_unknown_phone_witness :
  let res := post_signin_verify sample_config svc_unknown_phone "123456"
               pending_signin_state in
  res.1 = Raise (HTTPException 404 "No user found with this phone number") ∧
  session res.2 !! "user" = None.
Proof.
  destruct (signin_verify_unknown_phone sample_config svc_unknown_phone
              pending_signin_state "123456" ada_phone no_rows)
    as (H1 & _ & H3).
  - vm_compute. reflexivity.
  - discriminate.
  - eexists. split; vm_compute; reflexivity.
  - reflexivity.
  - right. reflexivity.
  - exact (conj H1 H3).
Defined.

(** C5.  In [POST /verify], after an approved check: if account creation
    returns nothing, or a response without a user, or if the profile
    insert reports an error, the request fails with HTTP 500 and the
    session is left as it was: [session["user"]] is not set and
    [session["pending_user"]] is still there. *)
Theorem provisioning_failure_keeps_pending cfg svc st otp name phone :
  session st !! "pending_user" = Some (pending_signup name phone) →
  gateway_status svc (check_request cfg (JStr phone) otp) (JStr "approved") →
  let res := post_verify cfg svc otp st in
  (∀ created,
      auth_admin_create_user svc (create_user_attributes (JStr name) (JStr phone))
        = Returns created →
      created = None ∨ created = Some {| user := None |} →
      res.1 = Raise (HTTPException 500
                ("Error creating user in Supabase: "
                   ++ "Supabase user creation response was invalid.")) ∧
      session res.2 = session st ∧
      session res.2 !! "user" = session st !! "user" ∧
      session res.2 !! "pending_user" = Some (pending_signup name phone)) ∧
  (∀ u ins err,
      auth_admin_create_user svc (create_user_attributes (JStr name) (JStr phone))
        = Returns (Some {| user := Some u |}) →
      table_insert_execute svc "profiles"
        (profile_row (User_id u) (JStr name) (JStr phone)) = Returns ins →
      error ins = Some err →
      obj_truthy err = true →
      res.1 = Raise (HTTPException 500
                ("Error creating user in Supabase: "
                   ++ ("Failed to create user profile: " ++ obj_str err))) ∧
      session res.2 = session st ∧
      session res.2 !! "user" = session st !! "user" ∧
      session res.2 !! "pending_user" = Some (pending_signup name phone)).
Proof.
  intros Hs [o [Ha Hst]] res.
  assert (Hres : res =
    match provision_account svc (JStr name) (JStr phone)
            (logged st [check_request cfg (JStr phone) otp]) with
    | (Ok user_id, st') =>
        (Ok (RedirectResponse "/" 302),
         {| session := delete "pending_user"
                         (<["user" := identity (JStr user_id) (JStr name)
                                               (JStr phone)]> (session st'));
            calls := calls st' |})
    | (Raise e, st') =>
        (Raise (HTTPException 500
                  ("Error creating user in Supabase: " ++ py_str_exn e)), st')
    end).
  { unfold res.
    apply (post_verify_approved cfg svc st otp (pending_signup name phone)
             (JStr phone) (JStr name) o Hs); try assumption.
    - apply py_truthy_insert.
    - reflexivity.
    - reflexivity. }
  split.
  - intros created Hc Hcr. rewrite Hres.
    rewrite (provision_account_no_user svc _ _ _ created Hc Hcr). simpl.
    repeat split. exact Hs.
  - intros u ins err Hc Hi He Ht. rewrite Hres.
    rewrite (provision_account_insert_error svc _ _ _ u ins err Hc Hi He Ht).
    simpl. repeat split. exact Hs.
Qed.

Lemma provisioning_failure_keeps_pending_witness :
  (let res := post_verify sample_config svc_no_user "123456" pending_signup_state in
   res.1 = Raise (HTTPException 500
             "Error creating user in Supabase: Supabase user creation response was invalid.") ∧
   session res.2 = session pending_signup_state) ∧
  (let res := post_verify sample_config svc_insert_error "123456"
                pending_signup_state in
   res.1 = Raise (HTTPException 500
             "Error creating user in Supabase: Failed to create user profile: duplicate key") ∧
   session res.2 = session pending_signup_state).
Proof.
  split.
  - destruct (provisioning_failure_keeps_pending sample_config svc_no_user
                pending_signup_state "123456" "Ada" ada_phone) as [H _].
    + vm_compute. reflexivity.
    + eexists. split; vm_compute; reflexivity.
    + destruct (H (Some {| user := None |})) as (H1 & H2 & _).
      * reflexivity.
      * right. reflexivity.
      * exact (conj H1 H2).
  - destruct (provisioning_failure_keeps_pending sample_config svc_insert_error
                pending_signup_state "123456" "Ada" ada_phone) as [_ H].
    + vm_compute. reflexivity.
    + eexists. split; vm_compute; reflexivity.
    + destruct (H {| User_id := "u1" |}
                  {| data := None;
                     error := Some {| obj_truthy := true;
                                      obj_str := "duplicate key" |} |}
                  {| obj_truthy := true; obj_str := "duplicate key" |})
        as (H1 & H2 & _).
      * reflexivity.
      * reflexivity.
      * reflexivity.
      * reflexivity.
      * exact (conj H1 H2).
Defined.

(** C6, as the code has it.  [POST /signup] and [POST /signin] store the
    pending signup, respectively the pending signin phone, in the session
    first and send the challenge afterwards.  They redirect to the
    verification page (302) exactly when the gateway's send status is
    [pending] or [approved]; with any other status the request fails with
    HTTP 500.  Either way the pending state just written is in the
    session when the handler is done. *)
Theorem submit_stores_pending_then_sends cfg svc st name phone o :
  answer_of svc (send_request cfg (JStr phone)) = Returns (JObj o) →
  let accepted := py_in_strs (dict_get o "status") ["pending"; "approved"] in
  post_signup cfg svc name phone st =
    (if accepted then Ok (RedirectResponse "/verify" 302)
     else Raise (HTTPException 500 "Failed to send OTP"),
     {| session := <["pending_user" := pending_signup name phone]> (session st);
        calls := calls st ++ [send_request cfg (JStr phone)] |}) ∧
  post_signin cfg svc phone st =
    (if accepted then Ok (RedirectResponse "/signin/verify" 302)
     else Raise (HTTPException 500 "Error during sign-in"),
     {| session := <["signin_phone" := JStr phone]> (session st);
        calls := calls st ++ [send_request cfg (JStr phone)] |}) ∧
  (accepted = true ↔
   dict_get o "status" = JStr "pending" ∨ dict_get o "status" = JStr "approved").
Proof.
  intros Ha accepted. split; [| split].
  - apply post_signup_run. exact Ha.
  - apply post_signin_run. exact Ha.
  - apply py_in_strs_accepted.
Qed.

Lemma submit_stores_pending_then_sends_witness :
  post_signup sample_config svc_approving "Ada" ada_phone anonymous =
    (Ok (RedirectResponse "/verify" 302),
     {| session := <["pending_user" := pending_signup "Ada" ada_phone]> ∅;
        calls := [send_request sample_config (JStr ada_phone)] |}) ∧
  post_signin sample_config svc_refusing ada_phone anonymous =
    (Raise (HTTPException 500 "Error during sign-in"),
     {| session := <["signin_phone" := JStr ada_phone]> ∅;
        calls := [send_request sample_config (JStr ada_phone)] |}).
Proof.
  split.
  - apply (proj1 (submit_stores_pending_then_sends sample_config svc_approving
                    anonymous "Ada" ada_phone {[ "status" := JStr "pending" ]}
                    eq_refl)).
  - apply (proj1 (proj2 (submit_stores_pending_then_sends sample_config
                           svc_refusing anonymous "Ada" ada_phone
                           {[ "status" := JStr "failed" ]} eq_refl))).
Defined.

(** C6, as stated, fails: the gateway refuses the send (status
    [failed]), the request fails with HTTP 500, and yet the session of a
    visitor who had no pending state now holds the pending signup
    (respectively the pending signin phone). *)
Lemma refused_send_leaves_pending_state :
  session anonymous !! "pending_user" = None ∧
  session anonymous !! "signin_phone" = None ∧
  gateway_status svc_refusing (send_request sample_config (JStr ada_phone))
    (JStr "failed") ∧
  (post_signup sample_config svc_refusing "Ada" ada_phone anonymous).1
    = Raise (HTTPException 500 "Failed to send OTP") ∧
  session (post_signup sample_config svc_refusing "Ada" ada_phone anonymous).2
    !! "pending_user" = Some (pending_signup "Ada" ada_phone) ∧
  (serve sample_config svc_refusing (POST_signup "Ada" ada_phone) ∅).2
    !! "pending_user" = Some (pending_signup "Ada" ada_phone) ∧
  (post_signin sample_config svc_refusing ada_phone anonymous).1
    = Raise (HTTPException 500 "Error during sign-in") ∧
  session (post_signin sample_config svc_refusing ada_phone anonymous).2
    !! "signin_phone" = Some (JStr ada_phone).
Proof.
  repeat split; try (vm_compute; reflexivity).
  eexists. split; vm_compute; reflexivity.
Qed.

(** C7, as the code has it.  Without the corresponding pending state in
    the session, the two verification pages ([GET]) redirect to the form
    that creates it ([/signup], [/signin]; status 307), while the two
    verification submissions ([POST]) fail with HTTP 400 and a message
    that sends the visitor to that form.  None of the four touches the
    session or calls out. *)
Theorem missing_pending_state cfg svc st otp :
  (py_truthy (dict_get (session st) "pending_user") = false →
     get_verify st = (Ok (RedirectResponse "/signup" 307), st) ∧
     post_verify cfg svc otp st =
       (Raise (HTTPException 400 "No pending user found. Please sign up first."),
        st)) ∧
  (py_truthy (dict_get (session st) "signin_phone") = false →
     get_signin_verify st = (Ok (RedirectResponse "/signin" 307), st) ∧
     post_signin_verify cfg svc otp st =
       (Raise (HTTPException 400 "No phone number found. Please sign in first."),
        st)).
Proof.
  split; intros H.
  - unfold get_verify, post_verify, mbind, M_bind, session_get.
    rewrite H. split; reflexivity.
  - unfold get_signin_verify, post_signin_verify, mbind, M_bind, session_get.
    rewrite H. split; reflexivity.
Qed.

Lemma missing_pending_state_witness :
  (get_verify anonymous = (Ok (RedirectResponse "/signup" 307), anonymous) ∧
   post_verify sample_config svc_approving "123456" anonymous =
     (Raise (HTTPException 400 "No pending user found. Please sign up first."),
      anonymous)) ∧
  (get_signin_verify anonymous = (Ok (RedirectResponse "/signin" 307), anonymous) ∧
   post_signin_verify sample_config svc_approving "123456" anonymous =
     (Raise (HTTPException 400 "No phone number found. Please sign in first."),
      anonymous)).
Proof.
  split.
  - apply (proj1 (missing_pending_state sample_config svc_approving anonymous
                    "123456")).
    vm_compute. reflexivity.
  - apply (proj2 (missing_pending_state sample_config svc_approving anonymous
                    "123456")).
    vm_compute. reflexivity.
Defined.

(** C7, as stated, fails: with an empty session, a [POST] to either
    verification endpoint is not answered with a redirect of any kind but
    with an HTTP 400 error. *)
Lemma post_without_pending_is_an_error :
  session anonymous !! "pending_user" = None ∧
  session anonymous !! "signin_phone" = None ∧
  (post_verify sample_config svc_approving "123456" anonymous).1
    = Raise (HTTPException 400 "No pending user found. Please sign up first.") ∧
  (post_signin_verify sample_config svc_approving "123456" anonymous).1
    = Raise (HTTPException 400 "No phone number found. Please sign in first.") ∧
  (∀ url code,
      (post_verify sample_config svc_approving "123456" anonymous).1
        ≠ Ok (RedirectResponse url code)) ∧
  (∀ url code,
      (post_signin_verify sample_config svc_approving "123456" anonymous).1
        ≠ Ok (RedirectResponse url code)).
Proof.
  repeat split; try (vm_compute; reflexivity); intros url code; vm_compute;
    discriminate.
Qed.

(** C8.  [GET /signout] redirects to [/] (302) and removes
    [session["user"]]; a [GET /] that follows renders [home.html] with
    [user] set to [None].  The same holds request by request, through
    the route table. *)
Theorem signout_then_home_shows_no_user cfg svc st :
  signout st =
    (Ok (RedirectResponse "/" 302),
     {| session := delete "user" (session st); calls := calls st |}) ∧
  session (signout st).2 !! "user" = None ∧
  home (signout st).2 =
    (Ok (TemplateResponse "home.html" {[ "user" := JNull ]}), (signout st).2) ∧
  (serve cfg svc GET_signout (session st)).1 = Ok (RedirectResponse "/" 302) ∧
  (serve cfg svc GET_home (serve cfg svc GET_signout (session st)).2).1 =
    Ok (TemplateResponse "home.html" {[ "user" := JNull ]}).
Proof.
  assert (Hget : dict_get (delete "user" (session st)) "user" = JNull).
  { unfold dict_get. rewrite lookup_delete_eq. reflexivity. }
  split; [reflexivity |]. split; [apply lookup_delete_eq |].
  split; [| split].
  - rewrite signout_run, home_run. simpl. rewrite Hget. reflexivity.
  - reflexivity.
  - unfold serve, route. rewrite signout_run. cbn [fst snd session].
    rewrite home_run. cbn [fst snd session]. rewrite Hget. reflexivity.
Qed.

(** C9.  Pending and authenticated state are not kept apart.  A
    [POST /signin/verify] that succeeds changes the session by setting
    ["user"] and removing ["signin_phone"] only, so a pending signup
    stays; a [POST /verify] that succeeds sets ["user"] and removes
    ["pending_user"] only, so a pending signin phone stays.  There are
    request sequences after which the session holds an identity together
    with a pending signup, and others where it holds an identity together
    with a pending signin phone. *)
Theorem stale_pending_state_survives cfg svc st otp resp :
  ((post_signin_verify cfg svc otp st).1 = Ok resp →
     let s' := session (post_signin_verify cfg svc otp st).2 in
     is_Some (s' !! "user") ∧
     s' !! "signin_phone" = None ∧
     s' !! "pending_user" = session st !! "pending_user" ∧
     ∀ k, k ≠ "user" → k ≠ "signin_phone" → s' !! k = session st !! k) ∧
  ((post_verify cfg svc otp st).1 = Ok resp →
     let s' := session (post_verify cfg svc otp st).2 in
     is_Some (s' !! "user") ∧
     s' !! "pending_user" = None ∧
     s' !! "signin_phone" = session st !! "signin_phone" ∧
     ∀ k, k ≠ "user" → k ≠ "pending_user" → s' !! k = session st !! k) ∧
  (let s := run_requests sample_config stale_signup_run ∅ in
   s !! "user" = Some (identity (JStr "u1") (JStr "Ada") (JStr ada_phone)) ∧
   s !! "pending_user" = Some (pending_signup "Ada" ada_phone) ∧
   s !! "signin_phone" = None) ∧
  (let s := run_requests sample_config stale_signin_run ∅ in
   s !! "user" = Some (identity (JStr "u1") (JStr "Ada") (JStr ada_phone)) ∧
   s !! "signin_phone" = Some (JStr ada_phone) ∧
   s !! "pending_user" = None).
Proof.
  split; [| split; [| split]].
  - intros Hok s'.
    destruct (post_signin_verify_ok cfg svc st otp resp Hok) as [_ [u Hs]].
    unfold s'. rewrite Hs.
    assert (Hframe : ∀ k, k ≠ "user" → k ≠ "signin_phone" →
              delete "signin_phone" (<["user" := u]> (session st)) !! k
              = session st !! k).
    { intros k Hu Hp.
      rewrite lookup_delete_ne by congruence.
      rewrite lookup_insert_ne by congruence. reflexivity. }
    split; [| split; [| split]].
    + exists u. rewrite lookup_delete_ne by discriminate.
      apply lookup_insert_eq.
    + apply lookup_delete_eq.
    + apply Hframe; discriminate.
    + exact Hframe.
  - intros Hok s'.
    destruct (post_verify_ok cfg svc st otp resp Hok) as [_ [u Hs]].
    unfold s'. rewrite Hs.
    assert (Hframe : ∀ k, k ≠ "user" → k ≠ "pending_user" →
              delete "pending_user" (<["user" := u]> (session st)) !! k
              = session st !! k).
    { intros k Hu Hp.
      rewrite lookup_delete_ne by congruence.
      rewrite lookup_insert_ne by congruence. reflexivity. }
    split; [| split; [| split]].
    + exists u. rewrite lookup_delete_ne by discriminate.
      apply lookup_insert_eq.
    + apply lookup_delete_eq.
    + apply Hframe; discriminate.
    + exact Hframe.
  - repeat split; vm_compute; reflexivity.
  - repeat split; vm_compute; reflexivity.
Qed.

Lemma stale_pending_state_survives_witness :
  (let s' := session (post_signin_verify sample_config svc_approving "123456"
                        crowded_state).2 in
   s' !! "pending_user" = Some (pending_signup "Ada" ada_phone) ∧
   s' !! "signin_phone" = None) ∧
  (let s' := session (post_verify sample_config svc_approving "123456"
                        crowded_state).2 in
   s' !! "signin_phone" = Some (JStr ada_phone) ∧
   s' !! "pending_user" = None).
Proof.
  split.
  - destruct (proj1 (stale_pending_state_survives sample_config svc_approving
                       crowded_state "123456" (RedirectResponse "/" 302)))
      as (_ & H2 & H3 & _).
    + vm_compute. reflexivity.
    + split; [rewrite H3; vm_compute; reflexivity | exact H2].
  - destruct (proj1 (proj2 (stale_pending_state_survives sample_config
                              svc_approving crowded_state "123456"
                              (RedirectResponse "/" 302))))
      as (_ & H2 & H3 & _).
    + vm_compute. reflexivity.
    + split; [rewrite H3; vm_compute; reflexivity | exact H2].
Defined.

(** C10.  [GET /signout] removes ["user"] from the session and changes
    nothing else: every other key, ["pending_user"] and ["signin_phone"]
    among them, reads as before, and no outbound call is made. *)
Theorem signout_touches_only_user st :
  session (signout st).2 = delete "user" (session st) ∧
  session (signout st).2 !! "pending_user" = session st !! "pending_user" ∧
  session (signout st).2 !! "signin_phone" = session st !! "signin_phone" ∧
  (∀ k, session (signout st).2 !! k =
        if decide (k = "user") then None else session st !! k) ∧
  calls (signout st).2 = calls st.
Proof.
  rewrite signout_run. simpl.
  split; [reflexivity |].
  split; [apply lookup_delete_ne; discriminate |].
  split; [apply lookup_delete_ne; discriminate |].
  split; [| reflexivity].
  intros k. destruct (decide (k = "user")) as [-> | Hne].
  - apply lookup_delete_eq.
  - apply lookup_delete_ne. congruence.
Qed.

(** * Further properties of the handlers *)

(** ** The form submissions, whatever the gateway does *)

Section SubmitAlways.

Context (cfg : config) (svc : services).

Lemma post_signup_state st name phone :
  (post_signup cfg svc name phone st).2 =
    {| session := <["pending_user" := pending_signup name phone]> (session st);
       calls := calls st ++ [send_request cfg (JStr phone)] |}.
Proof.
  unfold post_signup, mbind, M_bind, session_set.
  rewrite send_otp_run. unfold outbound.
  destruct (answer_of svc (send_request cfg (JStr phone))) as [v|cls msg];
    simpl; [| reflexivity].
  destruct v as [| | | | |o]; simpl; try reflexivity.
  destruct (py_in_strs (dict_get o "status") _); reflexivity.
Qed.

Lemma post_signin_state st phone :
  (post_signin cfg svc phone st).2 =
    {| session := <["signin_phone" := JStr phone]> (session st);
       calls := calls st ++ [send_request cfg (JStr phone)] |}.
Proof.
  unfold post_signin, try_except, mbind, M_bind, session_set.
  rewrite send_otp_run. unfold outbound.
  destruct (answer_of svc (send_request cfg (JStr phone))) as [v|cls msg];
    simpl; [| reflexivity].
  destruct v as [| | | | |o]; simpl; try reflexivity.
  destruct (py_in_strs (dict_get o "status") _); reflexivity.
Qed.

End SubmitAlways.

(** X1.  Whatever the gateway does with the challenge send (accept,
    refuse, answer with something that is not a JSON object, or raise),
    [POST /signup] leaves the session with exactly one change, the new
    pending signup, and [POST /signin] with exactly one change, the new
    pending signin phone; each has issued exactly one outbound call, the
    challenge send for the submitted phone. *)
Theorem submit_always_stores_pending cfg svc st name phone :
  session (post_signup cfg svc name phone st).2 =
    <["pending_user" := pending_signup name phone]> (session st) ∧
  calls (post_signup cfg svc name phone st).2 =
    (calls st ++ [send_request cfg (JStr phone)])%list ∧
  session (post_signin cfg svc phone st).2 =
    <["signin_phone" := JStr phone]> (session st) ∧
  calls (post_signin cfg svc phone st).2 =
    (calls st ++ [send_request cfg (JStr phone)])%list ∧
  session (post_signup cfg svc name phone st).2 !! "user" = session st !! "user" ∧
  session (post_signin cfg svc phone st).2 !! "user" = session st !! "user".
Proof.
  rewrite post_signup_state, post_signin_state. simpl.
  repeat split; apply lookup_insert_ne; discriminate.
Qed.

(** X2.  [POST /signin] has two outcomes only: the redirect to
    [/signin/verify] (302), or [HTTPException] 500 "Error during
    sign-in".  No other exception and no other status leaves the
    handler, whatever the gateway does. *)
Theorem signin_submit_outcomes cfg svc st phone :
  (post_signin cfg svc phone st).1 = Ok (RedirectResponse "/signin/verify" 302) ∨
  (post_signin cfg svc phone st).1 =
    Raise (HTTPException 500 "Error during sign-in").
Proof.
  unfold post_signin, try_except, mbind, M_bind, session_set.
  rewrite send_otp_run. unfold outbound.
  destruct (answer_of svc (send_request cfg (JStr phone))) as [v|cls msg];
    simpl; [| right; reflexivity].
  destruct v as [| | | | |o]; simpl; try (right; reflexivity).
  destruct (py_in_strs (dict_get o "status") _); [left | right]; reflexivity.
Qed.






(** ** Failures of the account store *)

(** X6.  In [POST /signin/verify], after an approved check, a profile
    lookup that raises is answered with [HTTPException] 500 "Error during
    sign-in verification": the store's own message is not passed on.  The
    session is left as it was, pending signin phone included. *)
Theorem signin_lookup_failure_is_500 cfg svc st otp phone cls msg :
  session st !! "signin_phone" = Some (JStr phone) →
  phone ≠ "" →
  gateway_status svc (check_request cfg (JStr phone) otp) (JStr "approved") →
  table_select_eq_execute svc "profiles" "*" "phone" (JStr phone) = Raises cls msg →
  post_signin_verify cfg svc otp st =
    (Raise (HTTPException 500 "Error during sign-in verification"),
     {| session := session st;
        calls := calls st ++ [check_request cfg (JStr phone) otp;
                              select_request (JStr phone)] |}).
Proof.
  intros Hs Hne [o [Ha Hst]] Hq.
  apply py_eq_str_true in Hst.
  unfold post_signin_verify, mbind, M_bind, session_get.
  rewrite (dict_get_some _ _ _ Hs), (py_truthy_str phone Hne). simpl.
  rewrite verify_otp_run, (outbound_returns _ _ _ _ Ha). simpl.
  rewrite Hst. simpl.
  unfold try_except, supabase_table_select_eq, outbound. rewrite Hq. simpl.
  rewrite <- app_assoc. reflexivity.
Qed.

Lemma signin_lookup_failure_is_500_witness :
  post_signin_verify sample_config svc_store_down "123456" pending_signin_state =
    (Raise (HTTPException 500 "Error during sign-in verification"),
     {| session := session pending_signin_state;
        calls := [check_request sample_config (JStr ada_phone) "123456";
                  select_request (JStr ada_phone)] |}).
Proof.
  apply (signin_lookup_failure_is_500 sample_config svc_store_down
           pending_signin_state "123456" ada_phone "APIError" "store unavailable").
  - vm_compute. reflexivity.
  - discriminate.
  - eexists. split; vm_compute; reflexivity.
  - reflexivity.
Defined.

(** X7.  In [POST /verify], after an approved check, an exception raised
    by the account creation or by the profile insert is answered with
    [HTTPException] 500 whose detail is "Error creating user in Supabase:
    " followed by the exception's own message.  When it is the insert
    that raises, the account creation has already been issued and no
    further call follows it: nothing undoes the created account.  The
    session is left as it was. *)
Theorem signup_store_exception_is_500 cfg svc st otp name phone :
  session st !! "pending_user" = Some (pending_signup name phone) →
  gateway_status svc (check_request cfg (JStr phone) otp) (JStr "approved") →
  (∀ cls msg,
      auth_admin_create_user svc (create_user_attributes (JStr name) (JStr phone))
        = Raises cls msg →
      post_verify cfg svc otp st =
        (Raise (HTTPException 500 ("Error creating user in Supabase: " ++ msg)),
         {| session := session st;
            calls := calls st ++
              [check_request cfg (JStr phone) otp;
               AuthAdminCreateUser
                 (create_user_attributes (JStr name) (JStr phone))] |})) ∧
  (∀ u cls msg,
      auth_admin_create_user svc (create_user_attributes (JStr name) (JStr phone))
        = Returns (Some {| user := Some u |}) →
      table_insert_execute svc "profiles"
        (profile_row (User_id u) (JStr name) (JStr phone)) = Raises cls msg →
      post_verify cfg svc otp st =
        (Raise (HTTPException 500 ("Error creating user in Supabase: " ++ msg)),
         {| session := session st;
            calls := calls st ++
              [check_request cfg (JStr phone) otp;
               AuthAdminCreateUser
                 (create_user_attributes (JStr name) (JStr phone));
               TableInsert "profiles"
                 (profile_row (User_id u) (JStr name) (JStr phone))] |})).
Proof.
  intros Hs [o [Ha Hst]].
  pose proof (post_verify_approved cfg svc st otp (pending_signup name phone)
                (JStr phone) (JStr name) o Hs (py_truthy_insert _ _ _)
                eq_refl eq_refl Ha Hst) as Hrun.
  split.
  - intros cls msg Hc. rewrite Hrun.
    unfold provision_account, mbind, M_bind, supabase_auth_admin_create_user,
      outbound.
    fold (create_user_attributes (JStr name) (JStr phone)).
    rewrite Hc. simpl. rewrite <- app_assoc. reflexivity.
  - intros u cls msg Hc Hi. rewrite Hrun.
    unfold provision_account, mbind, M_bind, supabase_auth_admin_create_user,
      supabase_table_insert, outbound.
    fold (create_user_attributes (JStr name) (JStr phone)).
    rewrite Hc. cbn [User_id session calls].
    fold (profile_row (User_id u) (JStr name) (JStr phone)).
    rewrite Hi. simpl. rewrite <- !app_assoc. reflexivity.
Qed.

Lemma signup_store_exception_is_500_witness :
  (post_verify sample_config svc_store_down "123456" pending_signup_state).1 =
    Raise (HTTPException 500
             "Error creating user in Supabase: store unavailable") ∧
  post_verify sample_config svc_insert_raises "123456" pending_signup_state =
    (Raise (HTTPException 500 "Error creating user in Supabase: duplicate key"),
     {| session := session pending_signup_state;
        calls := [check_request sample_config (JStr ada_phone) "123456";
                  AuthAdminCreateUser
                    (create_user_attributes (JStr "Ada") (JStr ada_phone));
                  TableInsert "profiles"
                    (profile_row "u1" (JStr "Ada") (JStr ada_phone))] |}).
Proof.
  split.
  - destruct (signup_store_exception_is_500 sample_config svc_store_down
                pending_signup_state "123456" "Ada" ada_phone) as [H _].
    + vm_compute. reflexivity.
    + eexists. split; vm_compute; reflexivity.
    + rewrite (H "APIError" "store unavailable" eq_refl). reflexivity.
  - destruct (signup_store_exception_is_500 sample_config svc_insert_raises
                pending_signup_state "123456" "Ada" ada_phone) as [_ H].
    + vm_compute. reflexivity.
    + eexists. split; vm_compute; reflexivity.
    + apply (H {| User_id := "u1" |} "APIError" "duplicate key");
        reflexivity.
Defined.

(** ** What goes out, and when *)

Lemma provision_account_calls svc st name phone :
  calls (provision_account svc name phone st).2 =
    (calls st ++ [AuthAdminCreateUser (create_user_attributes name phone)])%list ∨
  ∃ user_id,
    calls (provision_account svc name phone st).2 =
      (calls st ++ [AuthAdminCreateUser (create_user_attributes name phone);
                    TableInsert "profiles" (profile_row user_id name phone)])%list.
Proof.
  unfold provision_account, mbind, M_bind, supabase_auth_admin_create_user,
    supabase_table_insert, outbound.
  fold (create_user_attributes name phone).
  destruct (auth_admin_create_user svc _) as [[[[u|]]|]|cls msg]; simpl;
    try (left; reflexivity).
  right. exists (User_id u). fold (profile_row (User_id u) name phone).
  destruct (table_insert_execute svc _ _) as [ins|cls msg]; simpl;
    [| rewrite <- app_assoc; reflexivity].
  destruct (error ins) as [err|]; simpl; [destruct (obj_truthy err) |];
    simpl; rewrite <- app_assoc; reflexivity.
Qed.

(** X8.  The outbound calls of one [POST /verify] are an initial part of:
    the challenge check for the pending phone, the account creation for
    the pending name and phone, the insert of the profile row for them.
    Nothing goes out before the pending signup has been read with both
    its fields, and the account store is contacted only after the gateway
    has approved the check.  In particular the handler never looks up
    whether the phone already has a profile. *)
Theorem verify_calls_are_gated cfg svc st otp :
  ∃ new,
    calls (post_verify cfg svc otp st).2 = (calls st ++ new)%list ∧
    (new = [] ∨
     ∃ pending phone name,
       session st !! "pending_user" = Some pending ∧
       py_getitem pending "phone" = inr phone ∧
       py_getitem pending "name" = inr name ∧
       (new = [check_request cfg phone otp] ∨
        gateway_status svc (check_request cfg phone otp) (JStr "approved") ∧
        (new = [check_request cfg phone otp;
                AuthAdminCreateUser (create_user_attributes name phone)] ∨
         ∃ user_id,
           new = [check_request cfg phone otp;
                  AuthAdminCreateUser (create_user_attributes name phone);
                  TableInsert "profiles" (profile_row user_id name phone)]))).
Proof.
  unfold post_verify, mbind, M_bind, session_get, dict_get.
  destruct (session st !! "pending_user") as [pending|] eqn:Hs; simpl;
    [| exists []; rewrite app_nil_r; auto].
  destruct (py_truthy pending); simpl;
    [| exists []; rewrite app_nil_r; auto].
  destruct (py_getitem pending "phone") as [e|phone] eqn:Hp; simpl;
    [exists []; rewrite app_nil_r; auto |].
  destruct (py_getitem pending "name") as [e|name] eqn:Hn; simpl;
    [exists []; rewrite app_nil_r; auto |].
  rewrite verify_otp_run. unfold outbound.
  destruct (answer_of svc (check_request cfg phone otp)) as [v|cls msg] eqn:Ha;
    simpl;
    [| exists [check_request cfg phone otp]; split; [reflexivity |];
       right; exists pending, phone, name; auto].
  destruct v as [| | | | |o]; simpl;
    try (exists [check_request cfg phone otp]; split; [reflexivity |];
         right; exists pending, phone, name; auto).
  destruct (py_eq_str (dict_get o "status") "approved") eqn:He; simpl;
    [| exists [check_request cfg phone otp]; split; [reflexivity |];
       right; exists pending, phone, name; auto].
  assert (Happ : gateway_status svc (check_request cfg phone otp) (JStr "approved")).
  { exists o. split; [exact Ha | apply py_eq_str_true; exact He]. }
  unfold try_except.
  pose proof (provision_account_calls svc
                {| session := session st;
                   calls := calls st ++ [check_request cfg phone otp] |}
                name phone) as Hcalls.
  destruct (provision_account svc name phone _) as [[uid|e] st'];
    cbn [snd calls] in *.
  - destruct Hcalls as [Hc | [user_id Hc]]; rewrite Hc, <- app_assoc;
      eexists; (split; [reflexivity |]);
      right; exists pending, phone, name; repeat (split; [first [assumption | reflexivity] |]);
      right; (split; [exact Happ |]); [left | right; exists user_id];
      reflexivity.
  - unfold raise. cbn [snd calls].
    destruct Hcalls as [Hc | [user_id Hc]]; rewrite Hc, <- app_assoc;
      eexists; (split; [reflexivity |]);
      right; exists pending, phone, name; repeat (split; [first [assumption | reflexivity] |]);
      right; (split; [exact Happ |]); [left | right; exists user_id];
      reflexivity.
Qed.

(** X9.  The outbound calls of one [POST /signin/verify] are an initial
    part of: the challenge check for the pending signin phone, the
    profile lookup by that phone.  The profile table is queried only
    after the gateway has approved the check, and nothing is ever
    written to the account store. *)
Theorem signin_verify_calls_are_gated cfg svc st otp :
  ∃ new,
    calls (post_signin_verify cfg svc otp st).2 = (calls st ++ new)%list ∧
    (new = [] ∨
     ∃ phone,
       session st !! "signin_phone" = Some phone ∧
       (new = [check_request cfg phone otp] ∨
        gateway_status svc (check_request cfg phone otp) (JStr "approved") ∧
        new = [check_request cfg phone otp; select_request phone])).
Proof.
  unfold post_signin_verify, mbind, M_bind, session_get, dict_get.
  destruct (session st !! "signin_phone") as [phone|] eqn:Hs; simpl;
    [| exists []; rewrite app_nil_r; auto].
  destruct (py_truthy phone); simpl;
    [| exists []; rewrite app_nil_r; auto].
  rewrite verify_otp_run. unfold outbound.
  destruct (answer_of svc (check_request cfg phone otp)) as [v|cls msg] eqn:Ha;
    simpl;
    [| exists [check_request cfg phone otp]; split; [reflexivity |];
       right; exists phone; auto].
  destruct v as [| | | | |o]; simpl;
    try (exists [check_request cfg phone otp]; split; [reflexivity |];
         right; exists phone; auto).
  destruct (py_eq_str (dict_get o "status") "approved") eqn:He; simpl;
    [| exists [check_request cfg phone otp]; split; [reflexivity |];
       right; exists phone; auto].
  assert (Happ : gateway_status svc (check_request cfg phone otp) (JStr "approved")).
  { exists o. split; [exact Ha | apply py_eq_str_true; exact He]. }
  exists [check_request cfg phone otp; select_request phone].
  split; [| right; exists phone; auto].
  unfold try_except, supabase_table_select_eq, outbound.
  destruct (table_select_eq_execute svc _ _ _ _) as [r|cls msg]; simpl;
    [| rewrite <- app_assoc; reflexivity].
  destruct (data r) as [[|row rest]|]; simpl; rewrite <- app_assoc; reflexivity.
Qed.

(** ** Who may change the identity *)

Lemma page_state cfg svc req st :
  is_page req = true → (route cfg svc req st).2 = st.
Proof.
  destruct req; try discriminate; intros _; try reflexivity.
  - unfold route, get_verify, mbind, M_bind, session_get.
    destruct (py_truthy (dict_get (session st) "pending_user")); simpl;
      [| reflexivity].
    destruct (py_getitem _ "phone"); reflexivity.
  - unfold route, get_signin_verify, mbind, M_bind, session_get.
    destruct (py_truthy (dict_get (session st) "signin_phone")); reflexivity.
Qed.

(** Route by route: the identity reads as before, or it was removed by
    the sign-out, or a check was approved. *)
Lemma route_user cfg svc req st :
  session (route cfg svc req st).2 !! "user" = session st !! "user" ∨
  (req = GET_signout ∧ session (route cfg svc req st).2 !! "user" = None) ∨
  (∃ otp pending phone,
      req = POST_verify otp ∧
      session st !! "pending_user" = Some pending ∧
      py_getitem pending "phone" = inr phone ∧
      gateway_status svc (check_request cfg phone otp) (JStr "approved")) ∨
  (∃ otp phone,
      req = POST_signin_verify otp ∧
      session st !! "signin_phone" = Some phone ∧
      gateway_status svc (check_request cfg phone otp) (JStr "approved")).
Proof.
  destruct req as [| |name phone| |otp| | |phone| |otp];
    try (left; rewrite page_state by reflexivity; reflexivity).
  - left. unfold route. rewrite post_signup_state. cbn [session].
    apply lookup_insert_ne. discriminate.
  - destruct (post_verify_gate cfg svc st otp)
      as [[H _] | (pending & phone & H1 & H2 & H3)].
    + left. unfold route. rewrite H. reflexivity.
    + right. right. left. exists otp, pending, phone. auto.
  - right. left. split; [reflexivity |]. unfold route.
    rewrite signout_run. apply lookup_delete_eq.
  - left. unfold route. rewrite post_signin_state. cbn [session].
    apply lookup_insert_ne. discriminate.
  - destruct (post_signin_verify_gate cfg svc st otp)
      as [[H _] | (phone & H1 & H2)].
    + left. unfold route. rewrite H. reflexivity.
    + right. right. right. exists otp, phone. auto.
Qed.

(** X10.  Over the whole route table: if handling a request changes
    what [session["user"]] reads, the request was [GET /signout], or it
    was [POST /verify] with a check approved for the pending signup's
    phone, or [POST /signin/verify] with a check approved for the pending
    signin phone.  No other route, and no failed verification, touches
    the identity. *)
Theorem identity_changes_only_through_gate cfg svc req st :
  session (route cfg svc req st).2 !! "user" ≠ session st !! "user" →
  req = GET_signout ∨
  (∃ otp pending phone,
      req = POST_verify otp ∧
      session st !! "pending_user" = Some pending ∧
      py_getitem pending "phone" = inr phone ∧
      gateway_status svc (check_request cfg phone otp) (JStr "approved")) ∨
  (∃ otp phone,
      req = POST_signin_verify otp ∧
      session st !! "signin_phone" = Some phone ∧
      gateway_status svc (check_request cfg phone otp) (JStr "approved")).
Proof.
  intros Hne.
  destruct (route_user cfg svc req st) as [H | [[H _] | [H | H]]].
  - contradiction.
  - left. exact H.
  - right. left. exact H.
  - right. right. exact H.
Qed.

Lemma identity_changes_only_through_gate_witness :
  GET_signout = GET_signout ∨
  (∃ otp pending phone,
      GET_signout = POST_verify otp ∧
      session crowded_state !! "pending_user" = Some pending ∧
      py_getitem pending "phone" = inr phone ∧
      gateway_status svc_refusing (check_request sample_config phone otp)
        (JStr "approved")) ∨
  (∃ otp phone,
      GET_signout = POST_signin_verify otp ∧
      session crowded_state !! "signin_phone" = Some phone ∧
      gateway_status svc_refusing (check_request sample_config phone otp)
        (JStr "approved")).
Proof.
  apply (identity_changes_only_through_gate sample_config svc_refusing
           GET_signout crowded_state).
  vm_compute. discriminate.
Defined.

(** X11.  The five page requests ([GET /], [/signup], [/verify],
    [/signin], [/signin/verify]) are read-only: they leave the session as
    it is, make no outbound call, and never answer with an
    [HTTPException]. *)
Theorem pages_are_read_only cfg svc req st :
  is_page req = true →
  (route cfg svc req st).2 = st ∧
  ∀ status_code detail,
    (route cfg svc req st).1 ≠ Raise (HTTPException status_code detail).
Proof.
  intros Hp. split; [apply page_state; exact Hp |].
  intros c d.
  destruct req; try discriminate Hp; try discriminate.
  - unfold route, get_verify, mbind, M_bind, session_get.
    destruct (py_truthy (dict_get (session st) "pending_user")); simpl;
      [| discriminate].
    destruct (dict_get (session st) "pending_user") as [| | | | |o]; simpl;
      try discriminate.
    destruct (o !! "phone"); simpl; discriminate.
  - unfold route, get_signin_verify, mbind, M_bind, session_get.
    destruct (py_truthy (dict_get (session st) "signin_phone")); simpl;
      discriminate.
Qed.

Lemma pages_are_read_only_witness :
  (route sample_config svc_approving GET_verify crowded_state).2 = crowded_state ∧
  (route sample_config svc_approving GET_home crowded_state).2 = crowded_state.
Proof.
  split.
  - apply (proj1 (pages_are_read_only sample_config svc_approving GET_verify
                    crowded_state eq_refl)).
  - apply (proj1 (pages_are_read_only sample_config svc_approving GET_home
                    crowded_state eq_refl)).
Defined.

(** ** A pending signup that is not what [POST /signup] wrote *)

Lemma py_getitem_error v k e :
  py_getitem v k = inl e → ∃ cls msg, e = PyError cls msg.
Proof.
  destruct v as [| | | | |o]; simpl; try (intros [= <-]; eauto).
  destruct (o !! k); [discriminate | intros [= <-]; eauto].
Qed.

(** X12.  When [session["pending_user"]] is truthy but cannot give its
    [phone] (it is not a dict, or the key is missing), [GET /verify] and
    [POST /verify] both raise the subscript's own exception, which is
    not an [HTTPException].  When it gives [phone] but not [name], the
    page still renders while the submission raises.  In both cases the
    submission stops before the challenge check: no outbound call is
    made and the session is untouched. *)
Theorem malformed_pending_signup cfg svc st otp pending e :
  session st !! "pending_user" = Some pending →
  py_truthy pending = true →
  (py_getitem pending "phone" = inl e →
     get_verify st = (Raise e, st) ∧
     post_verify cfg svc otp st = (Raise e, st) ∧
     ∃ cls msg, e = PyError cls msg) ∧
  (∀ phone,
     py_getitem pending "phone" = inr phone →
     py_getitem pending "name" = inl e →
     get_verify st =
       (Ok (TemplateResponse "verify.html" {[ "phone" := phone ]}), st) ∧
     post_verify cfg svc otp st = (Raise e, st) ∧
     ∃ cls msg, e = PyError cls msg).
Proof.
  intros Hs Ht. split.
  - intros Hp.
    unfold get_verify, post_verify, mbind, M_bind, session_get.
    rewrite (dict_get_some _ _ _ Hs), Ht. simpl. rewrite Hp. simpl.
    repeat split. exact (py_getitem_error _ _ _ Hp).
  - intros phone Hp Hn.
    unfold get_verify, post_verify, mbind, M_bind, session_get.
    rewrite (dict_get_some _ _ _ Hs), Ht. simpl. rewrite Hp. simpl.
    rewrite Hn. simpl.
    repeat split. exact (py_getitem_error _ _ _ Hn).
Qed.

Lemma malformed_pending_signup_witness :
  (get_verify string_pending_state =
     (Raise (PyError "TypeError" "string indices must be integers"),
      string_pending_state) ∧
   post_verify sample_config svc_approving "123456" string_pending_state =
     (Raise (PyError "TypeError" "string indices must be integers"),
      string_pending_state)) ∧
  (get_verify nameless_pending_state =
     (Ok (TemplateResponse "verify.html" {[ "phone" := JStr ada_phone ]}),
      nameless_pending_state) ∧
   post_verify sample_config svc_approving "123456" nameless_pending_state =
     (Raise (PyError "KeyError" "'name'"), nameless_pending_state)).
Proof.
  split.
  - destruct (malformed_pending_signup sample_config svc_approving
                string_pending_state "123456" (JStr "Ada")
                (PyError "TypeError" "string indices must be integers"))
      as [H _].
    + vm_compute. reflexivity.
    + reflexivity.
    + destruct (H eq_refl) as (H1 & H2 & _). exact (conj H1 H2).
  - destruct (malformed_pending_signup sample_config svc_approving
                nameless_pending_state "123456"
                (JObj {[ "phone" := JStr ada_phone ]})
                (PyError "KeyError" "'name'"))
      as [_ H].
    + vm_compute. reflexivity.
    + vm_compute. reflexivity.
    + destruct (H (JStr ada_phone)) as (H1 & H2 & _).
      * vm_compute. reflexivity.
      * vm_compute. reflexivity.
      * exact (conj H1 H2).
Defined.

(** ** Whole flows *)

Lemma serve_post_signup cfg svc s name phone o :
  answer_of svc (send_request cfg (JStr phone)) = Returns (JObj o) →
  (serve cfg svc (POST_signup name phone) s).2 =
    <["pending_user" := pending_signup name phone]> s.
Proof.
  intros Ha. unfold serve, route.
  rewrite (post_signup_run cfg svc _ name phone o Ha).
  destruct (py_in_strs (dict_get o "status") _); reflexivity.
Qed.

Lemma signin_submit_outcomes_aux cfg svc st phone :
  (post_signin cfg svc phone st).1 = Ok (RedirectResponse "/signin/verify" 302) ∨
  (post_signin cfg svc phone st).1 =
    Raise (HTTPException 500 "Error during sign-in").
Proof.
  unfold post_signin, try_except, mbind, M_bind, session_set.
  rewrite send_otp_run. unfold outbound.
  destruct (answer_of svc (send_request cfg (JStr phone))) as [v|cls msg];
    simpl; [| right; reflexivity].
  destruct v as [| | | | |o]; simpl; try (right; reflexivity).
  destruct (py_in_strs (dict_get o "status") _); [left | right]; reflexivity.
Qed.

Lemma serve_post_signin cfg svc s phone :
  (serve cfg svc (POST_signin phone) s).2 = <["signin_phone" := JStr phone]> s.
Proof.
  unfold serve, route.
  pose proof (post_signin_state cfg svc {| session := s; calls := [] |} phone)
    as Hst.
  destruct (signin_submit_outcomes_aux cfg svc {| session := s; calls := [] |} phone)
    as [H | H];
    destruct (post_signin cfg svc phone _) as [out st']; simpl in *;
    subst; reflexivity.
Qed.

(** X13.  Signup from form to identity.  Let the visitor submit the
    signup form and the gateway answer the send with a JSON object, of
    any status.  If the visitor then submits a code, the gateway approves
    the check for the submitted phone, the account creation returns a
    user and the profile insert reports no error, the second request
    redirects to [/] (302) and the session is the original one with
    ["pending_user"] removed and ["user"] set to the created id with the
    name and phone typed into the form.  The send status plays no part:
    a submission that failed with the delivery error has still left the
    pending signup that the verification works from. *)
Theorem signup_flow cfg svc1 svc2 s name phone otp o u ins :
  answer_of svc1 (send_request cfg (JStr phone)) = Returns (JObj o) →
  gateway_status svc2 (check_request cfg (JStr phone) otp) (JStr "approved") →
  auth_admin_create_user svc2 (create_user_attributes (JStr name) (JStr phone))
    = Returns (Some {| user := Some u |}) →
  table_insert_execute svc2 "profiles"
    (profile_row (User_id u) (JStr name) (JStr phone)) = Returns ins →
  insert_ok ins →
  serve cfg svc2 (POST_verify otp)
        (serve cfg svc1 (POST_signup name phone) s).2 =
    (Ok (RedirectResponse "/" 302),
     <["user" := identity (JStr (User_id u)) (JStr name) (JStr phone)]>
       (delete "pending_user" s)).
Proof.
  intros Hsend [oc [Ha Hst]] Hc Hi Hok.
  rewrite (serve_post_signup cfg svc1 s name phone o Hsend).
  unfold serve, route.
  rewrite (post_verify_approved cfg svc2 _ otp (pending_signup name phone)
             (JStr phone) (JStr name) oc);
    [| apply lookup_insert_eq | apply py_truthy_insert | reflexivity
     | reflexivity | exact Ha | exact Hst].
  rewrite (provision_account_ok svc2 _ _ _ u ins Hc Hi Hok).
  cbn [logged session calls snd fst].
  rewrite delete_insert_ne by discriminate.
  rewrite delete_insert_eq. reflexivity.
Qed.

Lemma signup_flow_witness :
  serve sample_config svc_approving (POST_verify "123456")
        (serve sample_config svc_refusing (POST_signup "Ada" ada_phone) ∅).2 =
    (Ok (RedirectResponse "/" 302),
     <["user" := identity (JStr "u1") (JStr "Ada") (JStr ada_phone)]>
       (delete "pending_user" ∅)).
Proof.
  apply (signup_flow sample_config svc_refusing svc_approving ∅ "Ada" ada_phone
           "123456" {[ "status" := JStr "failed" ]} {| User_id := "u1" |}
           no_rows).
  - reflexivity.
  - eexists. split; vm_compute; reflexivity.
  - reflexivity.
  - reflexivity.
  - exact I.
Defined.

(** X14.  Signin from form to identity.  Let the visitor submit the
    signin form with a non-empty phone; whatever the gateway does with
    the send, the phone is pending.  If the visitor then submits a code,
    the gateway approves the check for that phone and the profile lookup
    returns at least one row, the second request redirects to [/] (302)
    and the session is the original one with ["signin_phone"] removed and
    ["user"] set from the first row. *)
Theorem signin_flow cfg svc1 svc2 s phone otp r user_profile rest :
  phone ≠ "" →
  gateway_status svc2 (check_request cfg (JStr phone) otp) (JStr "approved") →
  table_select_eq_execute svc2 "profiles" "*" "phone" (JStr phone) = Returns r →
  data r = Some (user_profile :: rest) →
  serve cfg svc2 (POST_signin_verify otp)
        (serve cfg svc1 (POST_signin phone) s).2 =
    (Ok (RedirectResponse "/" 302),
     <["user" := identity (dict_get user_profile "id")
                          (dict_get user_profile "name")
                          (dict_get user_profile "phone")]>
       (delete "signin_phone" s)).
Proof.
  intros Hne [oc [Ha Hst]] Hq Hd.
  rewrite serve_post_signin.
  unfold serve, route.
  rewrite (post_signin_verify_found cfg svc2 _ otp (JStr phone) oc r
             user_profile rest);
    [| apply lookup_insert_eq | apply py_truthy_str; exact Hne | exact Ha
     | exact Hst | exact Hq | exact Hd].
  cbn [session calls snd fst].
  rewrite delete_insert_ne by discriminate.
  rewrite delete_insert_eq. reflexivity.
Qed.

Lemma signin_flow_witness :
  serve sample_config svc_approving (POST_signin_verify "123456")
        (serve sample_config svc_gateway_down (POST_signin ada_phone) ∅).2 =
    (Ok (RedirectResponse "/" 302),
     <["user" := identity (JStr "u1") (JStr "Ada") (JStr ada_phone)]>
       (delete "signin_phone" ∅)).
Proof.
  apply (signin_flow sample_config svc_gateway_down svc_approving ∅ ada_phone
           "123456" {| data := Some [ada_row]; error := None |} ada_row []).
  - discriminate.
  - eexists. split; vm_compute; reflexivity.
  - reflexivity.
  - reflexivity.
Defined.

(** ** Sign-out *)

(** X15.  [GET /signout] never fails: with or without an identity in the
    session it answers with the redirect to [/] (302).  Without an
    identity it changes nothing at all, and signing out twice leaves the
    session as signing out once. *)
Theorem signout_is_safe_to_repeat st :
  (signout st).1 = Ok (RedirectResponse "/" 302) ∧
  session (signout (signout st).2).2 = session (signout st).2 ∧
  (session st !! "user" = None → (signout st).2 = st).
Proof.
  rewrite !signout_run. cbn [fst snd session].
  split; [reflexivity |]. split.
  - apply delete_id. apply lookup_delete_eq.
  - intros Hnone. rewrite (delete_id _ _ Hnone). destruct st; reflexivity.
Qed.

Lemma signout_is_safe_to_repeat_witness :
  (signout pending_signup_state).2 = pending_signup_state.
Proof.
  apply (proj2 (proj2 (signout_is_safe_to_repeat pending_signup_state))).
  vm_compute. reflexivity.
Defined.

(** ** The shape of the stored identity *)




(** ** No approval, no identity *)

Lemma serve_user_none cfg svc req s :
  never_approves cfg svc →
  s !! "user" = None →
  (serve cfg svc req s).2 !! "user" = None.
Proof.
  intros Hnever Hnone. unfold serve.
  pose proof (route_user cfg svc req {| session := s; calls := [] |}) as Hr.
  destruct (route cfg svc req _) as [[resp | [c d | cls msg]] st'];
    cbn [fst snd session] in *; try exact Hnone.
  - destruct Hr as [H | [[_ H] | [H | H]]].
    + rewrite H. exact Hnone.
    + exact H.
    + destruct H as (otp & pending & phone & _ & _ & _ & Happ).
      exfalso. exact (Hnever phone otp Happ).
    + destruct H as (otp & phone & _ & _ & Happ).
      exfalso. exact (Hnever phone otp Happ).
  - destruct Hr as [H | [[_ H] | [H | H]]].
    + rewrite H. exact Hnone.
    + exact H.
    + destruct H as (otp & pending & phone & _ & _ & _ & Happ).
      exfalso. exact (Hnever phone otp Happ).
    + destruct H as (otp & phone & _ & _ & Happ).
      exfalso. exact (Hnever phone otp Happ).
Qed.

(** X17.  A visitor without an identity stays without one through any
    sequence of requests, of any kind and in any order, during which the
    gateway approves no check. *)
Theorem no_approval_no_identity cfg reqs s :
  s !! "user" = None →
  Forall (λ sr, never_approves cfg sr.1) reqs →
  run_requests cfg reqs s !! "user" = None.
Proof.
  intros Hnone Hall. revert s Hnone.
  induction Hall as [| [svc req] reqs Hhead _ IH]; intros s Hnone.
  - exact Hnone.
  - simpl. apply IH. apply serve_user_none; assumption.
Qed.

Lemma no_approval_no_identity_witness :
  run_requests sample_config refused_run ∅ !! "user" = None.
Proof.
  apply (no_approval_no_identity sample_config refused_run ∅).
  - reflexivity.
  - unfold refused_run.
    repeat (apply Forall_cons; split;
            [intros phone otp; apply svc_refusing_never_approves |]).
    apply Forall_nil. exact I.
Defined.

(** ** After a successful verification *)

(** X18.  A successful verification uses up the pending state it worked
    from.  Submitting a code again right after a successful
    [POST /verify] fails with HTTP 400 "No pending user found. Please
    sign up first." before anything is sent out, so no second account is
    created; likewise a second [POST /signin/verify] fails with HTTP 400
    "No phone number found. Please sign in first.".  The identity set by
    the first request stays. *)
Theorem verification_cannot_be_replayed cfg svc svc' st otp otp' resp :
  ((post_verify cfg svc otp st).1 = Ok resp →
     post_verify cfg svc' otp' (post_verify cfg svc otp st).2 =
       (Raise (HTTPException 400 "No pending user found. Please sign up first."),
        (post_verify cfg svc otp st).2)) ∧
  ((post_signin_verify cfg svc otp st).1 = Ok resp →
     post_signin_verify cfg svc' otp' (post_signin_verify cfg svc otp st).2 =
       (Raise (HTTPException 400 "No phone number found. Please sign in first."),
        (post_signin_verify cfg svc otp st).2)).
Proof.
  split; intros Hok.
  - destruct (post_verify_ok cfg svc st otp resp Hok) as [_ [u Hs]].
    unfold post_verify at 1. unfold mbind, M_bind, session_get, dict_get.
    rewrite Hs, lookup_delete_eq. reflexivity.
  - destruct (post_signin_verify_ok cfg svc st otp resp Hok) as [_ [u Hs]].
    unfold post_signin_verify at 1. unfold mbind, M_bind, session_get, dict_get.
    rewrite Hs, lookup_delete_eq. reflexivity.
Qed.

Lemma verification_cannot_be_replayed_witness :
  (post_verify sample_config svc_approving "123456"
     (post_verify sample_config svc_approving "123456" pending_signup_state).2).1 =
    Raise (HTTPException 400 "No pending user found. Please sign up first.") ∧
  (post_signin_verify sample_config svc_approving "123456"
     (post_signin_verify sample_config svc_approving "123456"
        pending_signin_state).2).1 =
    Raise (HTTPException 400 "No phone number found. Please sign in first.").
Proof.
  split.
  - rewrite (proj1 (verification_cannot_be_replayed sample_config svc_approving
                      svc_approving pending_signup_state "123456" "123456"
                      (RedirectResponse "/" 302))).
    + reflexivity.
    + vm_compute. reflexivity.
  - rewrite (proj2 (verification_cannot_be_replayed sample_config svc_approving
                      svc_approving pending_signin_state "123456" "123456"
                      (RedirectResponse "/" 302))).
    + reflexivity.
    + vm_compute. reflexivity.
Defined.

(** X19.  Signing in and out again is a round trip.  For a visitor whose
    session holds neither an identity nor a pending signin phone: submit
    the signin form with a non-empty phone, submit a code that the
    gateway approves while the lookup finds a profile, then sign out;
    the session is again exactly what it was at the start.  The same
    holds for signing up (no identity and no pending signup at the
    start, account and profile created) and signing out. *)
Theorem sign_in_and_out_round_trip cfg svc1 svc2 svc3 s phone otp :
  s !! "user" = None →
  gateway_status svc2 (check_request cfg (JStr phone) otp) (JStr "approved") →
  (∀ r user_profile rest,
      s !! "signin_phone" = None →
      phone ≠ "" →
      table_select_eq_execute svc2 "profiles" "*" "phone" (JStr phone)
        = Returns r →
      data r = Some (user_profile :: rest) →
      (serve cfg svc3 GET_signout
         (serve cfg svc2 (POST_signin_verify otp)
            (serve cfg svc1 (POST_signin phone) s).2).2).2 = s) ∧
  (∀ name o u ins,
      s !! "pending_user" = None →
      answer_of svc1 (send_request cfg (JStr phone)) = Returns (JObj o) →
      auth_admin_create_user svc2
        (create_user_attributes (JStr name) (JStr phone))
        = Returns (Some {| user := Some u |}) →
      table_insert_execute svc2 "profiles"
        (profile_row (User_id u) (JStr name) (JStr phone)) = Returns ins →
      insert_ok ins →
      (serve cfg svc3 GET_signout
         (serve cfg svc2 (POST_verify otp)
            (serve cfg svc1 (POST_signup name phone) s).2).2).2 = s).
Proof.
  intros Huser [oc [Ha Hst]]. split.
  - intros r user_profile rest Hpend Hne Hq Hd.
    rewrite serve_post_signin.
    unfold serve at 2. unfold route.
    rewrite (post_signin_verify_found cfg svc2 _ otp (JStr phone) oc r
               user_profile rest);
      [| apply lookup_insert_eq | apply py_truthy_str; exact Hne | exact Ha
       | exact Hst | exact Hq | exact Hd].
    cbn [session calls snd fst].
    unfold serve, route. rewrite signout_run. cbn [session snd fst].
    rewrite delete_insert_ne by discriminate.
    rewrite delete_insert_eq, delete_insert_eq.
    rewrite (delete_id _ _ Hpend). apply delete_id. exact Huser.
  - intros name o u ins Hpend Hsend Hc Hi Hok.
    rewrite (serve_post_signup cfg svc1 s name phone o Hsend).
    unfold serve at 2. unfold route.
    rewrite (post_verify_approved cfg svc2 _ otp (pending_signup name phone)
               (JStr phone) (JStr name) oc);
      [| apply lookup_insert_eq | apply py_truthy_insert | reflexivity
       | reflexivity | exact Ha | exact Hst].
    rewrite (provision_account_ok svc2 _ _ _ u ins Hc Hi Hok).
    cbn [logged session calls snd fst].
    unfold serve, route. rewrite signout_run. cbn [session snd fst].
    rewrite delete_insert_ne by discriminate.
    rewrite delete_insert_eq, delete_insert_eq.
    rewrite (delete_id _ _ Hpend). apply delete_id. exact Huser.
Qed.

Lemma sign_in_and_out_round_trip_witness :
  (serve sample_config svc_approving GET_signout
     (serve sample_config svc_approving (POST_signin_verify "123456")
        (serve sample_config svc_approving (POST_signin ada_phone) ∅).2).2).2 = ∅ ∧
  (serve sample_config svc_approving GET_signout
     (serve sample_config svc_approving (POST_verify "123456")
        (serve sample_config svc_approving (POST_signup "Ada" ada_phone) ∅).2).2).2
    = ∅.
Proof.
  destruct (sign_in_and_out_round_trip sample_config svc_approving svc_approving
              svc_approving ∅ ada_phone "123456") as [H1 H2].
  - reflexivity.
  - eexists. split; vm_compute; reflexivity.
  - split.
    + apply (H1 {| data := Some [ada_row]; error := None |} ada_row []).
      * reflexivity.
      * discriminate.
      * reflexivity.
      * reflexivity.
    + apply (H2 "Ada" {[ "status" := JStr "pending" ]} {| User_id := "u1" |}
                no_rows).
      * reflexivity.
      * reflexivity.
      * reflexivity.
      * reflexivity.
      * exact I.
Defined.
